(** * Nightscout display action: a shallow embedding of [actions/nightscout.ts]

    The development follows the source file top to bottom:
    - [JsNum]: the numbers of the program (ECMAScript Number), with the
      special values the code can produce (NaN and the two infinities);
    - the data model ([Settings], [NightscoutResponse], [NightscoutEntry]);
    - the two renderers [renderNumber] and [renderGraph];
    - the per-instance state, the timers of the host and the asynchronous
      methods of [NightscoutAction], as a step function on a [World]: one
      step is one turn of the event loop, and a call of [fetchAndRender]
      takes three of them, one up to each [await fetch].

    Log lines are not represented.  A host call ([setImage], [showAlert])
    is recorded as made for the context id; the host resolves the id.

    Finite numbers are exact rationals: the rounding of binary64 arithmetic,
    its overflow and the sign of zero are not represented.  Everything the
    program does with a non-finite number (comparisons that fail on NaN,
    [0/0], [x/0], truthiness) is.  Sums, differences and comparisons of
    millisecond clock values and of list positions are exact in both.  A
    property that goes through a quotient, a rounding or a product of
    measured values is stated for the inputs on which the rationals give the
    result of binary64: whole numbers, or numbers with one decimal place, of
    at most a million in size ([whole], [one_decimal], [bounded]).

    [DIRECTION_ARROWS] is read by its own keys; the members an object
    literal inherits are listed in [Object_prototype_members]. *)

From Stdlib Require Import QArith Qround Qabs Qminmax Lqa ZArith Lia Ascii String.
From Stdlib Require Import Sorting.Sorted.
From stdpp Require Import gmap strings list fin_maps.

Local Open Scope Z_scope.

(* ===================================================================== *)
(** ** Numbers *)
(* ===================================================================== *)

Module JsNum.

Inductive num : Type :=
| NaN
| NegInf
| Fin (q : Q)
| PosInf.

(** A finite result, kept in lowest terms so that results can be compared
    with [=]. *)
Definition fin (q : Q) : num := Fin (Qred q).

Definition ofZ (z : Z) : num := Fin (inject_Z z).
Definition ofNat (n : nat) : num := ofZ (Z.of_nat n).

Definition neg (a : num) : num :=
  match a with
  | NaN => NaN
  | NegInf => PosInf
  | PosInf => NegInf
  | Fin q => fin (- q)
  end.

Definition add (a b : num) : num :=
  match a, b with
  | NaN, _ | _, NaN => NaN
  | PosInf, NegInf | NegInf, PosInf => NaN
  | PosInf, _ | _, PosInf => PosInf
  | NegInf, _ | _, NegInf => NegInf
  | Fin x, Fin y => fin (x + y)
  end.

Definition sub (a b : num) : num := add a (neg b).

(** The infinity of the sign of [c] ([Eq] cannot happen where this is
    used with a product of signs). *)
Definition inf_of (c : comparison) : num :=
  match c with
  | Lt => NegInf
  | Gt => PosInf
  | Eq => NaN
  end.

Definition sign (a : num) : comparison :=
  match a with
  | NaN => Eq
  | NegInf => Lt
  | PosInf => Gt
  | Fin q => (q ?= 0)%Q
  end.

Definition sign_mul (c d : comparison) : comparison :=
  match c, d with
  | Eq, _ | _, Eq => Eq
  | Lt, Lt | Gt, Gt => Gt
  | _, _ => Lt
  end.

Definition mul (a b : num) : num :=
  match a, b with
  | NaN, _ | _, NaN => NaN
  | Fin x, Fin y => fin (x * y)
  | _, _ => inf_of (sign_mul (sign a) (sign b))
  end.

(** Division: [0/0] and [inf/inf] are NaN, a non-zero number over zero is
    an infinity, a finite number over an infinity is zero. *)
Definition div (a b : num) : num :=
  match a, b with
  | NaN, _ | _, NaN => NaN
  | Fin x, Fin y =>
      match (y ?= 0)%Q with
      | Eq => inf_of (x ?= 0)%Q
      | _ => fin (x / y)
      end
  | Fin _, _ => Fin 0
  | _, Fin y =>
      match (y ?= 0)%Q with
      | Lt => neg a
      | _ => a
      end
  | _, _ => NaN
  end.

(** Comparisons: every comparison with NaN is false. *)
Definition leb (a b : num) : bool :=
  match a, b with
  | NaN, _ | _, NaN => false
  | NegInf, _ | _, PosInf => true
  | Fin x, Fin y => Qle_bool x y
  | _, _ => false
  end.

Definition ltb (a b : num) : bool :=
  match a, b with
  | NaN, _ | _, NaN => false
  | PosInf, _ | _, NegInf => false
  | Fin x, Fin y => negb (Qle_bool y x)
  | _, _ => true
  end.

Definition geb (a b : num) : bool := leb b a.
Definition gtb (a b : num) : bool := ltb b a.

(** [ToBoolean]: zero and NaN are falsy. *)
Definition truthy (a : num) : bool :=
  match a with
  | NaN => false
  | Fin q => negb (Qeq_bool q 0)
  | _ => true
  end.

(** [Math.round]: to the nearest integer, ties towards +infinity. *)
Definition round (a : num) : num :=
  match a with
  | Fin q => ofZ (Qfloor (q + (1 # 2)))
  | _ => a
  end.

Definition floor (a : num) : num :=
  match a with
  | Fin q => ofZ (Qfloor q)
  | _ => a
  end.

Definition ceil (a : num) : num :=
  match a with
  | Fin q => ofZ (Qceiling q)
  | _ => a
  end.

Definition max2 (a b : num) : num :=
  match a, b with
  | NaN, _ | _, NaN => NaN
  | _, _ => if leb a b then b else a
  end.

Definition min2 (a b : num) : num :=
  match a, b with
  | NaN, _ | _, NaN => NaN
  | _, _ => if leb a b then a else b
  end.

(** [Math.max(...l)] and [Math.min(...l)]; without arguments they are
    [-Infinity] and [Infinity]. *)
Definition max_list (l : list num) : num := foldr max2 NegInf l.
Definition min_list (l : list num) : num := foldr min2 PosInf l.

(** The integer a count argument denotes ([ToIntegerOrInfinity] on the
    finite values; the callers below only pass 1..5). *)
Definition to_nat (a : num) : nat :=
  match a with
  | Fin q => Z.to_nat (Qfloor q)
  | _ => 0%nat
  end.

End JsNum.

Import JsNum.

Declare Scope num_scope.
Delimit Scope num_scope with num.
Bind Scope num_scope with num.
Infix "+" := add : num_scope.
Infix "-" := sub : num_scope.
Infix "*" := mul : num_scope.
Infix "/" := div : num_scope.
Infix ">=?" := geb (at level 70) : num_scope.
Infix "<=?" := leb (at level 70) : num_scope.
Infix ">?" := gtb (at level 70) : num_scope.
Infix "<?" := ltb (at level 70) : num_scope.

(** Decimal literals of the source. *)
Definition n0 : num := ofZ 0.
Definition n18 : num := ofZ 18.

(* ===================================================================== *)
(** ** Data model *)
(* ===================================================================== *)

Inductive GlucoseUnit := Mgdl | Mmol.

(** [Settings] after the defaults have been merged in. *)
Record Settings := {
  nightscoutUrl : option string;
  token : option string;
  s_unit : GlucoseUnit;
  normalHigh : num;
  normalLow : num;
  urgentHigh : num;
  urgentLow : num;
  inRangeColor : string;
  normalColor : string;
  urgentColor : string;
  graphHours : num
}.

(** The settings object as the host delivers it: any key may be missing. *)
Record HostSettings := {
  h_nightscoutUrl : option string;
  h_token : option string;
  h_unit : option GlucoseUnit;
  h_normalHigh : option num;
  h_normalLow : option num;
  h_urgentHigh : option num;
  h_urgentLow : option num;
  h_inRangeColor : option string;
  h_normalColor : option string;
  h_urgentColor : option string;
  h_graphHours : option num
}.

Definition DEFAULT_SETTINGS : Settings := {|
  nightscoutUrl := None;
  token := None;
  s_unit := Mgdl;
  normalHigh := ofZ 180;
  normalLow := ofZ 70;
  urgentHigh := ofZ 250;
  urgentLow := ofZ 55;
  inRangeColor := "#00FF00";
  normalColor := "#FFFF00";
  urgentColor := "#FF0000";
  graphHours := ofZ 8
|}.

(** [{ ...this.DEFAULT_SETTINGS, ...settings }] *)
Definition mergeSettings (h : HostSettings) : Settings := {|
  nightscoutUrl := h_nightscoutUrl h;
  token := h_token h;
  s_unit := default (s_unit DEFAULT_SETTINGS) (h_unit h);
  normalHigh := default (normalHigh DEFAULT_SETTINGS) (h_normalHigh h);
  normalLow := default (normalLow DEFAULT_SETTINGS) (h_normalLow h);
  urgentHigh := default (urgentHigh DEFAULT_SETTINGS) (h_urgentHigh h);
  urgentLow := default (urgentLow DEFAULT_SETTINGS) (h_urgentLow h);
  inRangeColor := default (inRangeColor DEFAULT_SETTINGS) (h_inRangeColor h);
  normalColor := default (normalColor DEFAULT_SETTINGS) (h_normalColor h);
  urgentColor := default (urgentColor DEFAULT_SETTINGS) (h_urgentColor h);
  graphHours := default (graphHours DEFAULT_SETTINGS) (h_graphHours h)
|}.

Record Bgnow := { bg_last : option num; bg_mills : option num }.
Record Delta := { d_display : option string; d_scaled : option num }.
Record Direction := { dir_label : option string }.
Record Bucket := { fromMills : num; toMills : num }.

Record NightscoutResponse := {
  bgnow : option Bgnow;
  delta : option Delta;
  direction : option Direction;
  buckets : option (list Bucket)
}.

Record NightscoutEntry := {
  sgv : num;
  date : num;
  e_direction : option string
}.

Inductive DisplayMode := NUMBER | GRAPH.

Definition DIRECTION_ARROWS : list (string * string) :=
  [ ("DoubleUp", "⇈"); ("SingleUp", "↑"); ("FortyFiveUp", "↗");
    ("Flat", "→"); ("FortyFiveDown", "↘"); ("SingleDown", "↓");
    ("DoubleDown", "⇊"); ("NOT COMPUTABLE", "?");
    ("RATE OUT OF RANGE", "⚠") ]%string.

Fixpoint assoc (k : string) (l : list (string * string)) : option string :=
  match l with
  | [] => None
  | (k', v) :: l' => if String.eqb k k' then Some v else assoc k l'
  end.

Definition WIDTH : num := ofZ 144.
Definition HEIGHT : num := ofZ 144.
Definition LONG_PRESS_DURATION : num := ofZ 500.

(** Optional chaining: [data.bgnow?.last], [data.bgnow?.mills], ... *)
Definition bgnow_last (data : NightscoutResponse) : option num :=
  bgnow data ≫= bg_last.
Definition bgnow_mills (data : NightscoutResponse) : option num :=
  bgnow data ≫= bg_mills.
Definition delta_display (data : NightscoutResponse) : option string :=
  delta data ≫= d_display.
Definition delta_scaled (data : NightscoutResponse) : option num :=
  delta data ≫= d_scaled.
Definition direction_label (data : NightscoutResponse) : option string :=
  direction data ≫= dir_label.

(** Truthiness of an optional number and of an optional string. *)
Definition truthy_opt (o : option num) : option num :=
  match o with
  | Some v => if truthy v then Some v else None
  | None => None
  end.

Definition or_string (o : option string) (d : string) : string :=
  match o with
  | Some s => if String.eqb s EmptyString then d else s
  | None => d
  end.

(* ===================================================================== *)
(** ** Markup *)
(* ===================================================================== *)

(** The renderers return a template literal.  The fixed text of a template
    is determined by which template it is; the embedding keeps the template
    and the value of every hole.  A hole that holds text built from a number
    keeps the number. *)
Inductive Text :=
| TStr (s : string)
| TNum (n : num)
| TCat (a b : Text).

Record Circle := {
  cx : num; cy : num; radius : num; fill : string; stroke : bool
}.

Inductive PathPoint :=
| M (x y : num)
| L (x y : num).

Record GraphView := {
  g_urgentColor : string;
  g_normalColor : string;
  g_inRangeColor : string;
  g_gridY : num * num * num;          (* getY of maxLabel, midLabel, minLabel *)
  g_zoneHeights : list num;           (* the five zone rectangles *)
  g_thresholdY : num * num * num * num; (* urgentHighY normalHighY normalLowY urgentLowY *)
  g_labels : num * num * num;         (* maxLabel, midLabel, minLabel *)
  g_pathPoints : list PathPoint;
  g_circles : list Circle;
  g_currentColor : string;
  g_headerText : Text;
  g_headerArrow : string;
  g_timeRangeLabel : Text
}.

Inductive Svg :=
| SvgNoData
| SvgNumber (color : string) (last : num) (arrow : string) (delta : Text)
            (agoDisplay : Text)
| SvgNoHistory
| SvgGraph (g : GraphView).

(* ===================================================================== *)
(** ** The renderers *)
(* ===================================================================== *)

Local Open Scope num_scope.

Definition strict_eq (a b : num) : bool :=
  match a, b with
  | Fin x, Fin y => Qeq_bool x y
  | PosInf, PosInf | NegInf, NegInf => true
  | _, _ => false
  end.

Fixpoint repeat_string (s : string) (n : nat) : string :=
  match n with
  | O => EmptyString
  | S n' => String.append s (repeat_string s n')
  end.

(** [String.prototype.trim], on the white space of the ASCII range. *)
Definition is_space (c : ascii) : bool :=
  let n := nat_of_ascii c in
  ((9 <=? n)%nat && (n <=? 13)%nat) || (n =? 32)%nat.

Fixpoint drop_space (l : list ascii) : list ascii :=
  match l with
  | c :: l' => if is_space c then drop_space l' else l
  | [] => []
  end.

Definition trim (s : string) : string :=
  string_of_list_ascii
    (rev (drop_space (rev (drop_space (list_ascii_of_string s))))).

(** [Math.round((v / 18) * 10) / 10] *)
Definition toMmol1 (v : num) : num := round ((v / n18) * ofZ 10) / ofZ 10.

(** The delta text; [renderNumber] and [renderGraph] build it with the same
    four lines. *)
Definition deltaText (data : NightscoutResponse) (settings : Settings) : Text :=
  let delta := TStr (or_string (delta_display data) EmptyString) in
  match s_unit settings, truthy_opt (delta_scaled data) with
  | Mmol, Some scaled =>
      let mmolDelta := round ((scaled / n18) * ofZ 100) / ofZ 100 in
      if mmolDelta >=? n0 then TCat (TStr "+") (TNum mmolDelta)
      else TNum mmolDelta
  | _, _ => delta
  end.

(** [DIRECTION_ARROWS[directionText] || directionText] *)
Definition arrowOf (data : NightscoutResponse) : string :=
  let directionText := or_string (direction_label data) "Flat" in
  or_string (assoc directionText DIRECTION_ARROWS) directionText.

Definition agoText (now : num) (data : NightscoutResponse) : Text :=
  match truthy_opt (bgnow_mills data) with
  | Some mills =>
      let minutesAgo := floor ((now - mills) / ofZ 60000) in
      if minutesAgo >? ofZ 5 then TCat (TNum minutesAgo) (TStr "m ago")
      else if minutesAgo >? n0
           then TStr (trim (repeat_string "–" (to_nat minutesAgo)))
           else TStr "now"
  | None => TStr EmptyString
  end.

(** [renderNumber(data, settings)]; [now] is what [Date.now()] returns. *)
Definition renderNumber (now : num) (data : NightscoutResponse)
    (settings : Settings) : Svg :=
  match truthy_opt (bgnow_last data) with
  | None => SvgNoData
  | Some last0 =>
      let last :=
        match s_unit settings with
        | Mmol => toMmol1 last0
        | Mgdl => last0
        end in
      let color :=
        if (last >=? urgentHigh settings) || (last <=? urgentLow settings)
        then urgentColor settings
        else if (last >=? normalHigh settings) || (last <=? normalLow settings)
             then normalColor settings
             else inRangeColor settings in
      SvgNumber color last (arrowOf data) (deltaText data settings)
                (agoText now data)
  end.

(** [[...entries].sort((a, b) => a.date - b.date)]: the sort is stable, an
    element moves behind another one only when the comparator is positive. *)
Fixpoint insert_by {A} (cmp : A → A → num) (x : A) (l : list A) : list A :=
  match l with
  | [] => [x]
  | y :: l' => if cmp x y >? n0 then y :: insert_by cmp x l' else x :: l
  end.

Definition sort_by {A} (cmp : A → A → num) (l : list A) : list A :=
  foldr (insert_by cmp) [] l.

Definition graphTop : num := ofZ 28.
Definition graphBottom : num := HEIGHT - ofZ 18.
Definition graphLeft : num := ofZ 28.
Definition graphRight : num := WIDTH - ofZ 12.
Definition graphHeight : num := graphBottom - graphTop.
Definition graphWidth : num := graphRight - graphLeft.

(** [settings.unit === "mmol" ? v / 18 : v] *)
Definition scaled18 (settings : Settings) (v : num) : num :=
  match s_unit settings with
  | Mmol => v / n18
  | Mgdl => v
  end.

Definition renderGraph (data : NightscoutResponse)
    (entries : list NightscoutEntry) (settings : Settings) : Svg :=
  match entries with
  | [] => SvgNoHistory
  | _ :: _ =>
      let sortedEntries := sort_by (λ a b, date a - date b) entries in
      let values := map (λ e, scaled18 settings (sgv e)) sortedEntries in
      let maxThreshold := scaled18 settings (urgentHigh settings) in
      let minThreshold := scaled18 settings (urgentLow settings) in
      let maxValue := max_list (values ++ [maxThreshold]) in
      let minValue := min_list (values ++ [minThreshold]) in
      let range := maxValue - minValue in
      let padding := range * Fin (3 # 20) in
      let normalHigh' := scaled18 settings (normalHigh settings) in
      let normalLow' := scaled18 settings (normalLow settings) in
      let urgentHigh' := scaled18 settings (urgentHigh settings) in
      let urgentLow' := scaled18 settings (urgentLow settings) in
      let getY := λ value : num,
        graphBottom
        - ((value - (minValue - padding)) / (range + ofZ 2 * padding))
          * graphHeight in
      let lastIndex := ofNat (length values) - ofZ 1 in
      let pathPoints :=
        imap (λ index value,
                let x := graphLeft + (ofNat index / lastIndex) * graphWidth in
                let y := getY value in
                if strict_eq (ofNat index) n0 then M x y else L x y)
             values in
      let circles :=
        imap (λ index value,
                let x := graphLeft + (ofNat index / lastIndex) * graphWidth in
                let y := getY value in
                let color :=
                  if (value >=? urgentHigh') || (value <=? urgentLow')
                  then urgentColor settings
                  else if (value >=? normalHigh') || (value <=? normalLow')
                       then normalColor settings
                       else inRangeColor settings in
                let isLast := strict_eq (ofNat index) lastIndex in
                {| cx := x; cy := y;
                   radius := if isLast then Fin (7 # 2) else Fin (9 # 5);
                   fill := color; stroke := isLast |})
             values in
      let normalHighY := getY normalHigh' in
      let normalLowY := getY normalLow' in
      let urgentHighY := getY urgentHigh' in
      let urgentLowY := getY urgentLow' in
      let maxLabel := round (maxValue + padding) in
      let minLabel := round (minValue - padding) in
      let midLabel := round ((maxLabel + minLabel) / ofZ 2) in
      let timeRangeLabel := TCat (TNum (graphHours settings)) (TStr "h") in
      (* header: [currentValue] is reassigned when it is truthy *)
      let currentValue0 := bgnow_last data in
      let currentValue :=
        match truthy_opt currentValue0 with
        | Some v =>
            Some match s_unit settings with
                 | Mmol => toMmol1 v
                 | Mgdl => v
                 end
        | None => currentValue0
        end in
      let headerText :=
        match truthy_opt currentValue0, currentValue with
        | Some _, Some v =>
            TCat (TNum v) (TCat (TStr " ") (deltaText data settings))
        | _, _ => TStr EmptyString
        end in
      let headerArrow :=
        match truthy_opt currentValue0 with
        | Some _ => arrowOf data
        | None => EmptyString
        end in
      let currentColor :=
        match truthy_opt currentValue with
        | Some val =>
            if (val >=? urgentHigh') || (val <=? urgentLow')
            then urgentColor settings
            else if (val >=? normalHigh') || (val <=? normalLow')
                 then normalColor settings
                 else inRangeColor settings
        | None => inRangeColor settings
        end in
      SvgGraph {|
        g_urgentColor := urgentColor settings;
        g_normalColor := normalColor settings;
        g_inRangeColor := inRangeColor settings;
        g_gridY := (getY maxLabel, getY midLabel, getY minLabel);
        g_zoneHeights :=
          [ urgentHighY - graphTop; normalHighY - urgentHighY;
            normalLowY - normalHighY; urgentLowY - normalLowY;
            graphBottom - urgentLowY ];
        g_thresholdY := (urgentHighY, normalHighY, normalLowY, urgentLowY);
        g_labels := (maxLabel, midLabel, minLabel);
        g_pathPoints := pathPoints;
        g_circles := circles;
        g_currentColor := currentColor;
        g_headerText := headerText;
        g_headerArrow := headerArrow;
        g_timeRangeLabel := timeRangeLabel
      |}
  end.

(* ===================================================================== *)
(** ** Instance state, timers and the host *)
(* ===================================================================== *)

(** An instance is a mutable object: the [instances] map holds a reference
    to it, and so does every call of [fetchAndRender] that is suspended at
    an [await].  Objects live in a heap, addressed by [loc]. *)
Definition loc := nat.
Definition handle := nat.
Definition reqid := nat.

Record Instance := {
  displayMode : DisplayMode;
  keyDownTime : option num;
  fetchTimeout : option handle;
  renderTimeout : option handle;
  lastResponse : option NightscoutResponse;
  lastEntries : option (list NightscoutEntry)
}.

Definition set_displayMode (m : DisplayMode) (i : Instance) : Instance :=
  {| displayMode := m; keyDownTime := keyDownTime i;
     fetchTimeout := fetchTimeout i; renderTimeout := renderTimeout i;
     lastResponse := lastResponse i; lastEntries := lastEntries i |}.
Definition set_keyDownTime (t : option num) (i : Instance) : Instance :=
  {| displayMode := displayMode i; keyDownTime := t;
     fetchTimeout := fetchTimeout i; renderTimeout := renderTimeout i;
     lastResponse := lastResponse i; lastEntries := lastEntries i |}.
Definition set_fetchTimeout (h : option handle) (i : Instance) : Instance :=
  {| displayMode := displayMode i; keyDownTime := keyDownTime i;
     fetchTimeout := h; renderTimeout := renderTimeout i;
     lastResponse := lastResponse i; lastEntries := lastEntries i |}.
Definition set_renderTimeout (h : option handle) (i : Instance) : Instance :=
  {| displayMode := displayMode i; keyDownTime := keyDownTime i;
     fetchTimeout := fetchTimeout i; renderTimeout := h;
     lastResponse := lastResponse i; lastEntries := lastEntries i |}.
Definition set_lastResponse (d : option NightscoutResponse) (i : Instance)
    : Instance :=
  {| displayMode := displayMode i; keyDownTime := keyDownTime i;
     fetchTimeout := fetchTimeout i; renderTimeout := renderTimeout i;
     lastResponse := d; lastEntries := lastEntries i |}.
Definition set_lastEntries (es : option (list NightscoutEntry))
    (i : Instance) : Instance :=
  {| displayMode := displayMode i; keyDownTime := keyDownTime i;
     fetchTimeout := fetchTimeout i; renderTimeout := renderTimeout i;
     lastResponse := lastResponse i; lastEntries := es |}.

(** What a pending timer will call: [() => this.fetchAndRender(contextId,
    settings)] or [() => this.render(contextId, settings)]. *)
Inductive Callback :=
| CbFetch (contextId : string) (settings : HostSettings)
| CbRender (contextId : string) (settings : HostSettings).

Record Timer := { callback : Callback; delay : num }.

(** The two requests.  The header is [API-SECRET: hex(SHA-1(token))]; the
    request keeps the token the digest is taken of. *)
Inductive Endpoint :=
| Properties                (* /api/v2/properties/bgnow,buckets,delta,direction *)
| Entries (count : num).    (* /api/v1/entries.json?count=... *)

Record Request := {
  rq_base : string;
  rq_endpoint : Endpoint;
  rq_apiSecretOf : option string
}.

Inductive Reply (A : Type) :=
| NetworkError                              (* [fetch] rejects *)
| HttpReply (ok : bool) (json : option A).  (* [None]: the body does not parse *)
Arguments NetworkError {A}.
Arguments HttpReply {A} ok json.

(** Calls that leave the plugin, in the order they are made. *)
Inductive HostCall :=
| Fetch (r : reqid) (rq : Request)
| SetImage (contextId : string) (svg : Svg)
| ShowAlert (contextId : string).

(** A call of [fetchAndRender] suspended at one of its two [await fetch]. *)
Inductive Suspended :=
| AwaitProperties (inst : loc) (contextId : string) (settings : HostSettings)
    (mergedSettings : Settings)
| AwaitEntries (inst : loc) (contextId : string) (settings : HostSettings)
    (mergedSettings : Settings) (data : NightscoutResponse).

Record World := {
  instances : gmap string loc;
  heap : gmap loc Instance;
  nextLoc : loc;
  timers : gmap handle Timer;
  nextHandle : handle;
  inflight : gmap reqid Suspended;
  nextRequest : reqid;
  calls : list HostCall
}.

Definition empty_world : World :=
  {| instances := ∅; heap := ∅; nextLoc := 0%nat; timers := ∅;
     nextHandle := 0%nat; inflight := ∅; nextRequest := 0%nat; calls := [] |}.

Definition set_instances (f : gmap string loc → gmap string loc) (w : World)
    : World :=
  {| instances := f (instances w); heap := heap w; nextLoc := nextLoc w;
     timers := timers w; nextHandle := nextHandle w; inflight := inflight w;
     nextRequest := nextRequest w; calls := calls w |}.
Definition set_heap (f : gmap loc Instance → gmap loc Instance) (w : World)
    : World :=
  {| instances := instances w; heap := f (heap w); nextLoc := nextLoc w;
     timers := timers w; nextHandle := nextHandle w; inflight := inflight w;
     nextRequest := nextRequest w; calls := calls w |}.
Definition set_timers (f : gmap handle Timer → gmap handle Timer) (w : World)
    : World :=
  {| instances := instances w; heap := heap w; nextLoc := nextLoc w;
     timers := f (timers w); nextHandle := nextHandle w;
     inflight := inflight w; nextRequest := nextRequest w;
     calls := calls w |}.
Definition set_inflight (f : gmap reqid Suspended → gmap reqid Suspended)
    (w : World) : World :=
  {| instances := instances w; heap := heap w; nextLoc := nextLoc w;
     timers := timers w; nextHandle := nextHandle w;
     inflight := f (inflight w); nextRequest := nextRequest w;
     calls := calls w |}.

Definition host_call (c : HostCall) (w : World) : World :=
  {| instances := instances w; heap := heap w; nextLoc := nextLoc w;
     timers := timers w; nextHandle := nextHandle w; inflight := inflight w;
     nextRequest := nextRequest w; calls := calls w ++ [c] |}.

(** [setTimeout(cb, ms)]: a fresh handle, pending until it fires or is
    cleared. *)
Definition setTimeout (cb : Callback) (ms : num) (w : World)
    : handle * World :=
  (nextHandle w,
   {| instances := instances w; heap := heap w; nextLoc := nextLoc w;
      timers := <[nextHandle w := {| callback := cb; delay := ms |}]> (timers w);
      nextHandle := S (nextHandle w); inflight := inflight w;
      nextRequest := nextRequest w; calls := calls w |}).

(** [if (h) clearTimeout(h)] *)
Definition clearTimeout (h : option handle) (w : World) : World :=
  match h with
  | Some h => set_timers (delete h) w
  | None => w
  end.

(** An assignment to a field of the instance object at [l]. *)
Definition update_instance (l : loc) (f : Instance → Instance) (w : World)
    : World :=
  set_heap (alter f l) w.

(** [this.instances.get(contextId)] *)
Definition get_instance (contextId : string) (w : World)
    : option (loc * Instance) :=
  l ← instances w !! contextId; i ← heap w !! l; Some (l, i).

(** [await fetch(...)]: the request goes out and the call is suspended. *)
Definition await_fetch (rq : Request) (k : Suspended) (w : World) : World :=
  let r := nextRequest w in
  {| instances := instances w; heap := heap w; nextLoc := nextLoc w;
     timers := timers w; nextHandle := nextHandle w;
     inflight := <[r := k]> (inflight w);
     nextRequest := S r; calls := calls w ++ [Fetch r rq] |}.

(** A merged settings object, passed on where a settings object is
    expected. *)
Definition hostOf (s : Settings) : HostSettings :=
  {| h_nightscoutUrl := nightscoutUrl s; h_token := token s;
     h_unit := Some (s_unit s);
     h_normalHigh := Some (normalHigh s); h_normalLow := Some (normalLow s);
     h_urgentHigh := Some (urgentHigh s); h_urgentLow := Some (urgentLow s);
     h_inRangeColor := Some (inRangeColor s);
     h_normalColor := Some (normalColor s);
     h_urgentColor := Some (urgentColor s);
     h_graphHours := Some (graphHours s) |}.

Definition truthy_str (o : option string) : option string :=
  match o with
  | Some s => if String.eqb s EmptyString then None else Some s
  | None => None
  end.

(* ===================================================================== *)
(** ** The methods of [NightscoutAction] *)
(* ===================================================================== *)

(** The delay of the next fetch after a successful one (the lines between
    the render and the [setTimeout] of [fetchAndRender]). *)
Definition nextFetchDelay (now : num) (data : NightscoutResponse) : num :=
  let sleepMs := ofZ 30000 in
  match buckets data ≫= head, truthy_opt (bgnow_mills data) with
  | Some bucket, Some mills =>
      let lastDiff := toMills bucket - fromMills bucket in
      let nextRead := mills + lastDiff + ofZ 15000 in
      if (nextRead >? now) && (nextRead - now <? ofZ 300000)
      then min_list [nextRead - now; ofZ 30000]
      else sleepMs
  | _, _ => sleepMs
  end.

(** [Math.ceil((mergedSettings.graphHours * 60) / 5)] *)
Definition entriesCount (mergedSettings : Settings) : num :=
  ceil ((graphHours mergedSettings * ofZ 60) / ofZ 5).

Section Methods.

(** Whether [new URL(s)] accepts [s]; it throws a [TypeError] otherwise. *)
Variable URL_valid : string → bool.

(** [render(contextId, settings)].  The host calls ([setImage],
    [showAlert]) are taken to succeed, and [await setImage] is taken to
    resume in the same turn: no other handler runs between the picture and
    the timer of one call of [render]. *)
Definition render (now : num) (contextId : string) (settings : HostSettings)
    (w : World) : World :=
  match get_instance contextId w with
  | None => w
  | Some (l, instance) =>
      match lastResponse instance with
      | None => w
      | Some data =>
          let mergedSettings := mergeSettings settings in
          let svgContent :=
            match displayMode instance with
            | NUMBER => renderNumber now data mergedSettings
            | GRAPH =>
                renderGraph data (default [] (lastEntries instance))
                            mergedSettings
            end in
          let w1 := host_call (SetImage contextId svgContent) w in
          let w2 := clearTimeout (renderTimeout instance) w1 in
          let '(h, w3) :=
            setTimeout (CbRender contextId settings) (ofZ 60000) w2 in
          update_instance l (set_renderTimeout (Some h)) w3
      end
  end.

(** The [catch] block of [fetchAndRender]; [l] is the instance object the
    call looked up when it started. *)
Definition fetch_failed (l : loc) (contextId : string)
    (settings : HostSettings) (w : World) : World :=
  let w1 := host_call (ShowAlert contextId) w in
  let '(h, w2) := setTimeout (CbFetch contextId settings) (ofZ 60000) w1 in
  update_instance l (set_fetchTimeout (Some h)) w2.

Definition request (base : string) (e : Endpoint) (mergedSettings : Settings)
    : Request :=
  {| rq_base := base; rq_endpoint := e;
     rq_apiSecretOf := truthy_str (token mergedSettings) |}.

(** [fetchAndRender(contextId, settings, forceRefresh)] up to its first
    [await fetch]. *)
Definition fetchAndRender (contextId : string) (settings : HostSettings)
    (forceRefresh : bool) (w : World) : World :=
  match get_instance contextId w with
  | None => w
  | Some (l, instance) =>
      let w1 := clearTimeout (fetchTimeout instance) w in
      let w2 := clearTimeout (renderTimeout instance) w1 in
      let mergedSettings := mergeSettings settings in
      match truthy_str (nightscoutUrl mergedSettings) with
      | None => w2
      | Some base =>
          if URL_valid base
          then await_fetch (request base Properties mergedSettings)
                 (AwaitProperties l contextId settings mergedSettings) w2
          else fetch_failed l contextId settings w2
      end
  end.

(** From the answer of the properties request to the second
    [await fetch]. *)
Definition fetchAndRender_properties (r : reqid)
    (reply : Reply NightscoutResponse) (w : World) : World :=
  match inflight w !! r with
  | Some (AwaitProperties l contextId settings mergedSettings) =>
      let w0 := set_inflight (delete r) w in
      match reply with
      | HttpReply true (Some data) =>
          let w1 := update_instance l (set_lastResponse (Some data)) w0 in
          match truthy_str (nightscoutUrl mergedSettings) with
          | Some base =>
              if URL_valid base
              then await_fetch
                     (request base (Entries (entriesCount mergedSettings))
                              mergedSettings)
                     (AwaitEntries l contextId settings mergedSettings data)
                     w1
              else fetch_failed l contextId settings w1
          | None => fetch_failed l contextId settings w1
          end
      | _ => fetch_failed l contextId settings w0
      end
  | _ => w
  end.

(** From the answer of the entries request to the end of the call. *)
Definition fetchAndRender_schedule (now : num) (l : loc)
    (contextId : string) (settings : HostSettings)
    (mergedSettings : Settings) (data : NightscoutResponse) (w : World)
    : World :=
  let w1 := render now contextId (hostOf mergedSettings) w in
  let sleepMs := nextFetchDelay now data in
  let '(h, w2) := setTimeout (CbFetch contextId settings) sleepMs w1 in
  update_instance l (set_fetchTimeout (Some h)) w2.

Definition fetchAndRender_entries (now : num) (r : reqid)
    (reply : Reply (list NightscoutEntry)) (w : World) : World :=
  match inflight w !! r with
  | Some (AwaitEntries l contextId settings mergedSettings data) =>
      let w0 := set_inflight (delete r) w in
      match reply with
      | NetworkError => fetch_failed l contextId settings w0
      | HttpReply true None => fetch_failed l contextId settings w0
      | HttpReply true (Some entries) =>
          fetchAndRender_schedule now l contextId settings mergedSettings
            data (update_instance l (set_lastEntries (Some entries)) w0)
      | HttpReply false _ =>
          fetchAndRender_schedule now l contextId settings mergedSettings
            data w0
      end
  | _ => w
  end.

Definition onWillAppear (contextId : string) (settings : HostSettings)
    (w : World) : World :=
  let instance :=
    {| displayMode := NUMBER; keyDownTime := None; fetchTimeout := None;
       renderTimeout := None; lastResponse := None; lastEntries := None |} in
  let l := nextLoc w in
  let w1 :=
    {| instances := <[contextId := l]> (instances w);
       heap := <[l := instance]> (heap w); nextLoc := S l;
       timers := timers w; nextHandle := nextHandle w;
       inflight := inflight w; nextRequest := nextRequest w;
       calls := calls w |} in
  fetchAndRender contextId settings false w1.

Definition onWillDisappear (contextId : string) (w : World) : World :=
  match get_instance contextId w with
  | Some (l, instance) =>
      let w1 := clearTimeout (fetchTimeout instance) w in
      let w2 := clearTimeout (renderTimeout instance) w1 in
      set_instances (delete contextId) w2
  | None => w
  end.

Definition onKeyDown (now : num) (contextId : string) (w : World) : World :=
  match get_instance contextId w with
  | Some (l, _) => update_instance l (set_keyDownTime (Some now)) w
  | None => w
  end.

Definition onKeyUp (now : num) (contextId : string)
    (settings : HostSettings) (w : World) : World :=
  match get_instance contextId w with
  | None => w
  | Some (l, instance) =>
      match truthy_opt (keyDownTime instance) with
      | None => w
      | Some keyDownTime =>
          let pressDuration := now - keyDownTime in
          let w1 := update_instance l (set_keyDownTime None) w in
          if pressDuration >=? LONG_PRESS_DURATION
          then fetchAndRender contextId settings true w1
          else
            let toggled :=
              match displayMode instance with
              | NUMBER => GRAPH
              | GRAPH => NUMBER
              end in
            render now contextId settings
              (update_instance l (set_displayMode toggled) w1)
      end
  end.

Definition onDidReceiveSettings (contextId : string)
    (settings : HostSettings) (w : World) : World :=
  fetchAndRender contextId settings false w.

(** *** The event loop

    One step is one turn of the event loop: an event of the host, a timer
    that fires, or the answer to a request that resumes the call waiting
    for it.  [now] is the value of [Date.now()] during the turn. *)
Inductive Event :=
| WillAppear (contextId : string) (settings : HostSettings)
| WillDisappear (contextId : string)
| KeyDown (contextId : string)
| KeyUp (contextId : string) (settings : HostSettings)
| DidReceiveSettings (contextId : string) (settings : HostSettings)
| TimerFires (h : handle)
| PropertiesReply (r : reqid) (reply : Reply NightscoutResponse)
| EntriesReply (r : reqid) (reply : Reply (list NightscoutEntry)).

Definition step (now : num) (ev : Event) (w : World) : World :=
  match ev with
  | WillAppear c s => onWillAppear c s w
  | WillDisappear c => onWillDisappear c w
  | KeyDown c => onKeyDown now c w
  | KeyUp c s => onKeyUp now c s w
  | DidReceiveSettings c s => onDidReceiveSettings c s w
  | TimerFires h =>
      match timers w !! h with
      | Some t =>
          let w1 := set_timers (delete h) w in
          match callback t with
          | CbFetch c s => fetchAndRender c s false w1
          | CbRender c s => render now c s w1
          end
      | None => w
      end
  | PropertiesReply r reply => fetchAndRender_properties r reply w
  | EntriesReply r reply => fetchAndRender_entries now r reply w
  end.

(** A run: the turns in order, each with its clock. *)
Definition run (turns : list (num * Event)) (w : World) : World :=
  foldl (λ w t, step t.1 t.2 w) w turns.

(** A call of [fetchAndRender] that no other turn interleaves with: the
    call, then the answer to each request it made. *)
Definition fetchAndRender_alone (now : num) (contextId : string)
    (settings : HostSettings) (forceRefresh : bool)
    (properties : Reply NightscoutResponse)
    (entries : Reply (list NightscoutEntry)) (w : World) : World :=
  let w1 := fetchAndRender contextId settings forceRefresh w in
  if (nextRequest w1 =? nextRequest w)%nat then w1
  else
    let w2 := fetchAndRender_properties (nextRequest w) properties w1 in
    if (nextRequest w2 =? nextRequest w1)%nat then w2
    else fetchAndRender_entries now (nextRequest w1) entries w2.

End Methods.

(* ===================================================================== *)
(** ** What is observed of a rendering, and the inputs of the examples *)
(* ===================================================================== *)

(** The three severity bands and the colour the settings give each. *)
Inductive Severity := InRange | NormalAlert | UrgentAlert.

Definition severity_color (settings : Settings) (sev : Severity) : string :=
  match sev with
  | InRange => inRangeColor settings
  | NormalAlert => normalColor settings
  | UrgentAlert => urgentColor settings
  end.

(** Order on numbers as the comparisons of the program decide it. *)
Definition num_ge (a b : num) : Prop := (a >=? b) = true.
Definition num_le (a b : num) : Prop := (a <=? b) = true.

(** The fill colour and the value of the large reading of Number mode. *)
Definition number_fill (svg : Svg) : option string :=
  match svg with
  | SvgNumber color _ _ _ _ => Some color
  | _ => None
  end.

Definition number_value (svg : Svg) : option num :=
  match svg with
  | SvgNumber _ last _ _ _ => Some last
  | _ => None
  end.

(** The fill colours of the sample markers of Graph mode, oldest first, and
    the colour of its header. *)
Definition graph_fills (svg : Svg) : option (list string) :=
  match svg with
  | SvgGraph g => Some (fill <$> g_circles g)
  | _ => None
  end.

Definition graph_header_color (svg : Svg) : option string :=
  match svg with
  | SvgGraph g => Some (g_currentColor g)
  | _ => None
  end.

(** The colour Number mode gives a reading that is present (truthy). *)
Definition number_color_of (settings : Settings) (reading : num)
    : option string :=
  number_fill
    (renderNumber n0
       {| bgnow := Some {| bg_last := Some reading; bg_mills := None |};
          delta := None; direction := None; buckets := None |}
       settings).

(** [data] with the [last] field of [bgnow] removed. *)
Definition without_last (data : NightscoutResponse) : NightscoutResponse :=
  {| bgnow := (λ b, {| bg_last := None; bg_mills := bg_mills b |}) <$> bgnow data;
     delta := delta data; direction := direction data;
     buckets := buckets data |}.

(** The default thresholds with the unit switched to mmol/L. *)
Definition mmol_settings : HostSettings :=
  {| h_nightscoutUrl := None; h_token := None; h_unit := Some Mmol;
     h_normalHigh := None; h_normalLow := None; h_urgentHigh := None;
     h_urgentLow := None; h_inRangeColor := None; h_normalColor := None;
     h_urgentColor := None; h_graphHours := None |}.

(** A snapshot whose current reading is [v] mg/dL, taken at [mills]. *)
Definition reading (v : num) (mills : option num) : NightscoutResponse :=
  {| bgnow := Some {| bg_last := Some v; bg_mills := mills |};
     delta := None; direction := None; buckets := None |}.

Definition sample (v d : Z) : NightscoutEntry :=
  {| sgv := ofZ v; date := ofZ d; e_direction := None |}.

(** The next-fetch delay in the words of the specification: the estimate is
    the end of the most recent bucket plus its duration plus 15 seconds. *)
Definition spec_nextFetchDelay (now : num) (data : NightscoutResponse) : num :=
  match buckets data ≫= head with
  | Some bucket =>
      let estimate :=
        toMills bucket + (toMills bucket - fromMills bucket) + ofZ 15000 in
      if (estimate >? now) && (estimate - now <? ofZ 300000)
      then min_list [estimate - now; ofZ 30000]
      else ofZ 30000
  | None => ofZ 30000
  end.

(** A key "k" configured with a site, a world in which it is registered
    and nothing is pending, and a snapshot with one bucket of five
    minutes. *)
Definition site_settings : HostSettings :=
  {| h_nightscoutUrl := Some "https://ns.example"%string; h_token := None;
     h_unit := None;
     h_normalHigh := None; h_normalLow := None; h_urgentHigh := None;
     h_urgentLow := None; h_inRangeColor := None; h_normalColor := None;
     h_urgentColor := None; h_graphHours := None |}.

Definition new_instance : Instance :=
  {| displayMode := NUMBER; keyDownTime := None; fetchTimeout := None;
     renderTimeout := None; lastResponse := None; lastEntries := None |}.

Definition world_k : World :=
  {| instances := {["k"%string := 0%nat]}; heap := {[0%nat := new_instance]};
     nextLoc := 1%nat; timers := ∅; nextHandle := 0%nat; inflight := ∅;
     nextRequest := 0%nat; calls := [] |}.

Definition any_URL : string → bool := λ _, true.

Definition snapshot (last mills : Z) : NightscoutResponse :=
  {| bgnow := Some {| bg_last := Some (ofZ last); bg_mills := Some (ofZ mills) |};
     delta := None; direction := None;
     buckets := Some [ {| fromMills := ofZ 0; toMills := ofZ 300000 |} ] |}.

(** Two calls of [fetchAndRender] for the same key in flight at once: the
    key appears, the settings arrive before the first answer, then the four
    answers come in. *)
Definition overlapping_fetches : list (num * Event) :=
  let t := ofZ 1000000 in
  let data := snapshot 100 900000 in
  [ (t, WillAppear "k" site_settings);
    (t, DidReceiveSettings "k" site_settings);
    (t, PropertiesReply 0%nat (HttpReply true (Some data)));
    (t, PropertiesReply 1%nat (HttpReply true (Some data)));
    (t, EntriesReply 2%nat (HttpReply true (Some [sample 100 1; sample 110 2])));
    (t, EntriesReply 3%nat (HttpReply true (Some [sample 100 1; sample 110 2]))) ].

(** The handles of the pending timers that will call [fetchAndRender] for
    [contextId]. *)
Definition is_fetch_for (contextId : string) (t : Timer) : bool :=
  match callback t with
  | CbFetch c _ => String.eqb c contextId
  | CbRender _ _ => false
  end.

Definition pending_fetches (contextId : string) (w : World) : list handle :=
  (filter (λ ht, is_fetch_for contextId ht.2 = true) (map_to_list (timers w))).*1.

(** Both [clearTimeout] at the head of [fetchAndRender] and of
    [onWillDisappear], as one change of the timer table. *)
Definition cleared (i : Instance) (m : gmap handle Timer) : gmap handle Timer :=
  let m1 := match fetchTimeout i with Some h => delete h m | None => m end in
  match renderTimeout i with Some h => delete h m1 | None => m1 end.

(** The two requests of a call for the site [base]. *)
Definition properties_request (base : string) (s : HostSettings) : Request :=
  request base Properties (mergeSettings s).
Definition entries_request (base : string) (s : HostSettings) : Request :=
  request base (Entries (entriesCount (mergeSettings s))) (mergeSettings s).

(** Inputs on which the arithmetic of the renderers gives the same result
    in rationals as in double precision: whole numbers of at most a million
    in size, and numbers with one decimal place of that size.  A quotient
    by 18 of a whole number is never half-way between two numbers with one
    (or two) decimal places, and is far from it compared with the precision
    of a double of this size, so that [Math.round] picks the same one. *)
Definition whole (a : num) : Prop :=
  ∃ z : Z, a = ofZ z ∧ (Z.abs z <= 1000000)%Z.
Definition one_decimal (a : num) : Prop :=
  ∃ k : Z, a = fin (inject_Z k / 10) ∧ (Z.abs k <= 10000000)%Z.

(** The settings of a site in mmol/L with thresholds in mmol/L. *)
Definition mmol_thresholds : Settings :=
  {| nightscoutUrl := nightscoutUrl DEFAULT_SETTINGS;
     token := token DEFAULT_SETTINGS; s_unit := Mmol;
     normalHigh := fin (inject_Z 100 / 10); normalLow := fin (inject_Z 39 / 10);
     urgentHigh := fin (inject_Z 139 / 10); urgentLow := fin (inject_Z 30 / 10);
     inRangeColor := inRangeColor DEFAULT_SETTINGS;
     normalColor := normalColor DEFAULT_SETTINGS;
     urgentColor := urgentColor DEFAULT_SETTINGS;
     graphHours := graphHours DEFAULT_SETTINGS |}.

(** The key "k" held down since [t]. *)
Definition pressed_at (t : Z) : World := onKeyDown (ofZ t) "k" world_k.

(* ===================================================================== *)
(** ** Notions used by the properties of the rest of the program *)
(* ===================================================================== *)

(** [s] with another unit. *)
Definition with_unit (u : GlucoseUnit) (s : Settings) : Settings :=
  {| nightscoutUrl := nightscoutUrl s; token := token s; s_unit := u;
     normalHigh := normalHigh s; normalLow := normalLow s;
     urgentHigh := urgentHigh s; urgentLow := urgentLow s;
     inRangeColor := inRangeColor s; normalColor := normalColor s;
     urgentColor := urgentColor s; graphHours := graphHours s |}.

(** A number that is finite, and the rational it is. *)
Definition finite (a : num) : Prop := ∃ q, a = Fin q.
Definition num_is (a : num) (q : Q) : Prop := ∃ q', a = Fin q' ∧ (q' == q)%Q.

(** A finite number of at most a million in size. *)
Definition bounded (a : num) : Prop :=
  ∃ q, a = Fin q ∧ (Qabs q <= 1000000)%Q.

(** The names every JavaScript object inherits from [Object.prototype].
    [DIRECTION_ARROWS] is an object literal, so that an index by one of
    these names finds the inherited member, not an arrow; [assoc] reads the
    table's own keys, and the properties of [arrowOf] are stated for labels
    that are none of these names. *)
Definition Object_prototype_members : list string :=
  [ "constructor"; "__defineGetter__"; "__defineSetter__"; "hasOwnProperty";
    "__lookupGetter__"; "__lookupSetter__"; "isPrototypeOf";
    "propertyIsEnumerable"; "toString"; "valueOf"; "__proto__";
    "toLocaleString" ]%string.
Definition inherited_name (k : string) : bool :=
  existsb (String.eqb k) Object_prototype_members.

(** A snapshot that carries only a direction label, or only a scaled
    delta. *)
Definition direction_only (label : string) : NightscoutResponse :=
  {| bgnow := None; delta := None;
     direction := Some {| dir_label := Some label |}; buckets := None |}.
Definition delta_only (scaled : Z) : NightscoutResponse :=
  {| bgnow := None;
     delta := Some {| d_display := None; d_scaled := Some (ofZ scaled) |};
     direction := None; buckets := None |}.

Definition finite_date (e : NightscoutEntry) : Prop := ∃ q, date e = Fin q.
Definition finite_sgv (e : NightscoutEntry) : Prop := ∃ q, sgv e = Fin q.
Definition date_le (a b : NightscoutEntry) : Prop :=
  (date a <=? date b) = true.

(** The key "k" in Graph mode with a snapshot and no history yet, and the
    world after the key of [overlapping_fetches] has gone. *)
Definition world_graph : World :=
  {| instances := {["k"%string := 0%nat]};
     heap := {[0%nat :=
       {| displayMode := GRAPH; keyDownTime := None; fetchTimeout := None;
          renderTimeout := None;
          lastResponse := Some (snapshot 100 900000);
          lastEntries := None |}]};
     nextLoc := 1%nat; timers := ∅; nextHandle := 0%nat; inflight := ∅;
     nextRequest := 0%nat; calls := [] |}.

Definition world_gone : World :=
  run any_URL (overlapping_fetches ++ [(ofZ 1000000, WillDisappear "k")])
    empty_world.

(* ===================================================================== *)
(** * Properties *)
(* ===================================================================== *)

(* ===================================================================== *)
(** ** Numbers: the comparisons and the rounding *)
(* ===================================================================== *)

Lemma leb_Fin x y : (Fin x <=? Fin y) = true ↔ (x <= y)%Q.
Proof. apply Qle_bool_iff. Qed.

Lemma ltb_Fin x y : (Fin x <? Fin y) = true ↔ (x < y)%Q.
Proof.
  simpl. rewrite negb_true_iff. split.
  - intros H. apply Qnot_le_lt. intros Hle.
    apply Qle_bool_iff in Hle. congruence.
  - intros H. destruct (Qle_bool y x) eqn:E; [|done].
    apply Qle_bool_iff in E. exfalso. eapply Qlt_not_le; eauto.
Qed.

Lemma num_ge_Fin x y : num_ge (Fin x) (Fin y) ↔ (y <= x)%Q.
Proof. apply leb_Fin. Qed.

Lemma num_le_Fin x y : num_le (Fin x) (Fin y) ↔ (x <= y)%Q.
Proof. apply leb_Fin. Qed.

Lemma num_ge_refl q : num_ge (Fin q) (Fin q).
Proof. apply num_ge_Fin, Qle_refl. Qed.

Lemma num_le_refl q : num_le (Fin q) (Fin q).
Proof. apply num_le_Fin, Qle_refl. Qed.

(** Nothing compares with NaN. *)
Lemma NaN_incomparable a :
  (a >=? NaN) = false ∧ (a <=? NaN) = false ∧
  (NaN >=? a) = false ∧ (NaN <=? a) = false.
Proof. by destruct a. Qed.

(** [Math.round((v / 18) * 10) / 10] of a finite [v] is a multiple of one
    tenth, at most one twentieth away from [v / 18]. *)
Lemma toMmol1_Fin q :
  ∃ r k, toMmol1 (Fin q) = Fin r ∧ (r * 10 == inject_Z k)%Q ∧
         (Qabs (r - q / 18) <= 1 # 20)%Q.
Proof.
  eexists _, (Qfloor (Qred (Qred (q / 18) * 10) + (1 # 2))).
  split; [reflexivity|].
  set (k := Qfloor _).
  assert (Hk1 : (inject_Z k <= q / 18 * 10 + (1 # 2))%Q).
  { unfold k. eapply Qle_trans; [apply Qfloor_le|].
    rewrite !Qred_correct. apply Qle_refl. }
  assert (Hk2 : (q / 18 * 10 + (1 # 2) < inject_Z (k + 1))%Q).
  { unfold k. eapply Qle_lt_trans; [|apply Qlt_floor].
    rewrite !Qred_correct. apply Qle_refl. }
  rewrite inject_Z_plus in Hk2.
  rewrite !Qred_correct.
  split.
  - field.
  - apply Qabs_Qle_condition. change (inject_Z 1) with 1%Q in Hk2.
    unfold Qdiv in *. change (/ inject_Z 10)%Q with (1 # 10)%Q.
    set (x := (q * / 18)%Q) in *. clearbody k x. split; lra.
Qed.

(* ===================================================================== *)
(** ** Number mode *)
(* ===================================================================== *)

(** The three-way choice both renderers write out, as a severity. *)
Lemma band_cases (settings : Settings) (v uh ul nh nl : num) :
  ∃ sev,
    (if (v >=? uh) || (v <=? ul) then urgentColor settings
     else if (v >=? nh) || (v <=? nl) then normalColor settings
          else inRangeColor settings) = severity_color settings sev ∧
    (sev = UrgentAlert ↔ num_ge v uh ∨ num_le v ul) ∧
    (sev = NormalAlert ↔
       ¬ (num_ge v uh ∨ num_le v ul) ∧ (num_ge v nh ∨ num_le v nl)) ∧
    (sev = InRange ↔
       ¬ (num_ge v uh ∨ num_le v ul) ∧ ¬ (num_ge v nh ∨ num_le v nl)).
Proof.
  unfold num_ge, num_le.
  destruct (v >=? uh) eqn:E1, (v <=? ul) eqn:E2; simpl;
    try (exists UrgentAlert; split; [done|]; intuition congruence).
  destruct (v >=? nh) eqn:E3, (v <=? nl) eqn:E4; simpl;
    try (exists NormalAlert; split; [done|]; intuition congruence).
  exists InRange. split; [done|]. intuition congruence.
Qed.

(** C5. In Number mode the value drawn is the converted reading: the
    reading itself in mg/dL, [Math.round((last / 18) * 10) / 10] in mmol/L.
    It is drawn in the urgent-alert colour exactly when that value is
    >= urgent-high or <= urgent-low; otherwise in the normal-alert colour
    exactly when it is >= normal-high or <= normal-low; otherwise in the
    in-range colour.  A value equal to a threshold is on the alert side.
    In mg/dL this holds of every reading and all thresholds; in mmol/L it is
    stated for a reading that is a whole number of mg/dL and thresholds
    with one decimal place, where the rounding is that of the program. *)
Theorem renderNumber_severity (now : num) (data : NightscoutResponse)
    (settings : Settings) (last0 : num) :
  truthy_opt (bgnow_last data) = Some last0 →
  (s_unit settings = Mmol →
   whole last0 ∧
   one_decimal (urgentHigh settings) ∧ one_decimal (urgentLow settings) ∧
   one_decimal (normalHigh settings) ∧ one_decimal (normalLow settings)) →
  let value :=
    match s_unit settings with
    | Mmol => toMmol1 last0
    | Mgdl => last0
    end in
  ∃ sev,
    number_value (renderNumber now data settings) = Some value ∧
    number_fill (renderNumber now data settings)
      = Some (severity_color settings sev) ∧
    let urgent :=
      num_ge value (urgentHigh settings) ∨ num_le value (urgentLow settings) in
    let alert :=
      num_ge value (normalHigh settings) ∨ num_le value (normalLow settings) in
    (sev = UrgentAlert ↔ urgent) ∧
    (sev = NormalAlert ↔ ¬ urgent ∧ alert) ∧
    (sev = InRange ↔ ¬ urgent ∧ ¬ alert) ∧
    (∀ q, value = Fin q →
          urgentHigh settings = Fin q ∨ urgentLow settings = Fin q →
          sev = UrgentAlert).
Proof.
  intros Hlast _ value. unfold renderNumber. rewrite Hlast. fold value.
  destruct (band_cases settings value (urgentHigh settings)
              (urgentLow settings) (normalHigh settings) (normalLow settings))
    as (sev & Hc & Hu & Hn & Hi).
  exists sev. simpl. rewrite Hc.
  repeat split; try tauto.
  intros q Hv [Hq | Hq]; apply Hu; rewrite Hv, Hq;
    [left; apply num_ge_refl | right; apply num_le_refl].
Qed.

Lemma renderNumber_severity_witness :
  truthy_opt (bgnow_last (reading (ofZ 54) None)) = Some (ofZ 54) ∧
  (whole (ofZ 54) ∧
   one_decimal (urgentHigh mmol_thresholds) ∧
   one_decimal (urgentLow mmol_thresholds) ∧
   one_decimal (normalHigh mmol_thresholds) ∧
   one_decimal (normalLow mmol_thresholds)) ∧
  toMmol1 (ofZ 54) = fin (inject_Z 30 / 10) ∧
  number_value (renderNumber n0 (reading (ofZ 54) None) mmol_thresholds)
    = Some (toMmol1 (ofZ 54)) ∧
  number_fill (renderNumber n0 (reading (ofZ 54) None) mmol_thresholds)
    = Some (severity_color mmol_thresholds UrgentAlert).
Proof.
  assert (Hd : whole (ofZ 54) ∧
               one_decimal (urgentHigh mmol_thresholds) ∧
               one_decimal (urgentLow mmol_thresholds) ∧
               one_decimal (normalHigh mmol_thresholds) ∧
               one_decimal (normalLow mmol_thresholds)).
  { split; [exists 54%Z; split; [reflexivity | simpl; lia]|].
    split; [exists 139%Z; split; [reflexivity | simpl; lia]|].
    split; [exists 30%Z; split; [reflexivity | simpl; lia]|].
    split; [exists 100%Z; split; [reflexivity | simpl; lia]|].
    exists 39%Z; split; [reflexivity | simpl; lia]. }
  split; [reflexivity|]. split; [exact Hd|]. split; [reflexivity|].
  destruct (renderNumber_severity n0 (reading (ofZ 54) None) mmol_thresholds
              (ofZ 54) eq_refl (λ _, Hd))
    as (sev & Hv & Hf & _ & _ & _ & Hb).
  split; [exact Hv|].
  rewrite Hf. f_equal. f_equal.
  apply (Hb (3 # 1)%Q); [reflexivity | right; reflexivity].
Defined.

(** C6 (as the program has it). For a reading that is a whole number of
    mg/dL (of at most 1 000 000 in size), Number mode leaves the reading
    unchanged in mg/dL; in mmol/L it shows the reading divided by 18 and
    rounded to one decimal place (a multiple of 0.1 within 0.05 of the
    quotient), and multiplying the shown value by 18 gives the reading back
    within 0.9. *)
Theorem renderNumber_conversion (now : num) (data : NightscoutResponse)
    (settings : Settings) (z : Z) :
  (Z.abs z <= 1000000)%Z →
  truthy_opt (bgnow_last data) = Some (ofZ z) →
  match s_unit settings with
  | Mgdl => number_value (renderNumber now data settings) = Some (ofZ z)
  | Mmol =>
      ∃ r k,
        number_value (renderNumber now data settings) = Some (Fin r) ∧
        (r * 10 == inject_Z k)%Q ∧
        (Qabs (r - inject_Z z / 18) <= 1 # 20)%Q ∧
        (Qabs (r * 18 - inject_Z z) <= 9 # 10)%Q
  end.
Proof.
  intros _ Hlast. unfold renderNumber. rewrite Hlast.
  destruct (s_unit settings); [reflexivity|].
  destruct (toMmol1_Fin (inject_Z z)) as (r & k & Hr0 & Hk & Hr).
  unfold ofZ. rewrite Hr0.
  exists r, k. repeat split; [done..|].
  apply Qabs_Qle_condition. apply Qabs_Qle_condition in Hr.
  unfold Qdiv in Hr. set (x := (inject_Z z * / 18)%Q) in *.
  assert (Hx : (inject_Z z == x * 18)%Q) by (unfold x; field).
  rewrite Hx. clearbody x. split; lra.
Qed.

Lemma renderNumber_conversion_witness :
  (Z.abs 100 <= 1000000)%Z ∧
  truthy_opt (bgnow_last (reading (ofZ 100) None)) = Some (ofZ 100) ∧
  ∃ r k,
    number_value
      (renderNumber n0 (reading (ofZ 100) None) (mergeSettings mmol_settings))
      = Some (Fin r) ∧
    (r * 10 == inject_Z k)%Q ∧
    (Qabs (r - inject_Z 100 / 18) <= 1 # 20)%Q ∧
    (Qabs (r * 18 - inject_Z 100) <= 9 # 10)%Q.
Proof.
  split; [simpl; lia|]. split; [reflexivity|].
  apply (renderNumber_conversion n0 (reading (ofZ 100) None)
           (mergeSettings mmol_settings) 100%Z); [simpl; lia|reflexivity].
Defined.

(** C6, the claim as stated fails: 100 mg/dL is shown as 5.6 mmol/L, and
    5.6 * 18 = 100.8 is 0.8 away from 100, more than 0.1. *)
Lemma mmol_round_trip_off_by_more_than_a_tenth :
  number_value
    (renderNumber n0 (reading (ofZ 100) None) (mergeSettings mmol_settings))
    = Some (Fin (28 # 5)) ∧
  Fin (28 # 5) * n18 = Fin (504 # 5) ∧
  ¬ (Qabs ((504 # 5) - 100) <= 1 # 10)%Q.
Proof.
  split; [reflexivity|]. split; [reflexivity|].
  intros H. vm_compute in H. by apply H.
Qed.

(* ===================================================================== *)
(** ** Graph mode *)
(* ===================================================================== *)


(** C10. A current reading of exactly 0 is rendered as an absent one: Number
    mode shows "No Data", Graph mode gives the same picture as without the
    reading, with an empty header in the in-range colour. *)
Theorem zero_reading_as_absent (now : num) (data : NightscoutResponse)
    (entries : list NightscoutEntry) (settings : Settings) :
  bgnow_last data = Some n0 →
  renderNumber now data settings = SvgNoData ∧
  renderNumber now (without_last data) settings = SvgNoData ∧
  renderGraph data entries settings
    = renderGraph (without_last data) entries settings ∧
  (entries ≠ [] →
   ∃ g, renderGraph data entries settings = SvgGraph g ∧
        g_headerText g = TStr EmptyString ∧ g_headerArrow g = EmptyString ∧
        g_currentColor g = inRangeColor settings).
Proof.
  intros H0.
  assert (Hw : bgnow_last (without_last data) = None).
  { unfold bgnow_last, without_last. simpl. by destruct (bgnow data). }
  unfold renderNumber, renderGraph. rewrite H0, Hw. simpl.
  split; [done|]. split; [done|].
  destruct entries as [|e es]; [by split|].
  split; [done|]. intros _. eexists. split; [reflexivity|]. done.
Qed.

Lemma zero_reading_as_absent_witness :
  bgnow_last (reading n0 None) = Some n0 ∧
  renderNumber n0 (reading n0 None) DEFAULT_SETTINGS = SvgNoData ∧
  renderNumber n0 (without_last (reading n0 None)) DEFAULT_SETTINGS
    = SvgNoData ∧
  renderGraph (reading n0 None) [sample 100 1; sample 110 2] DEFAULT_SETTINGS
    = renderGraph (without_last (reading n0 None))
        [sample 100 1; sample 110 2] DEFAULT_SETTINGS ∧
  ([sample 100 1; sample 110 2] ≠ [] →
   ∃ g, renderGraph (reading n0 None) [sample 100 1; sample 110 2]
          DEFAULT_SETTINGS = SvgGraph g ∧
        g_headerText g = TStr EmptyString ∧ g_headerArrow g = EmptyString ∧
        g_currentColor g = inRangeColor DEFAULT_SETTINGS).
Proof.
  split; [reflexivity|].
  apply (zero_reading_as_absent n0 (reading n0 None)
           [sample 100 1; sample 110 2] DEFAULT_SETTINGS).
  reflexivity.
Defined.

(* ===================================================================== *)
(** ** Number mode against Graph mode *)
(* ===================================================================== *)

Lemma truthy_opt_Some (o : option num) (v : num) :
  truthy_opt o = Some v ↔ o = Some v ∧ truthy v = true.
Proof.
  destruct o as [x|]; simpl.
  - destruct (truthy x) eqn:E; split.
    + by intros [= ->].
    + by intros [[= ->] _].
    + done.
    + intros [[= ->] ?]. congruence.
  - split; [done | by intros [? _]].
Qed.

(** In mg/dL the two renderers compare the same value with the same
    thresholds: the header of the graph has the colour of the number. *)
Lemma header_color_agrees_mgdl (now : num) (data : NightscoutResponse)
    (e : NightscoutEntry) (es : list NightscoutEntry) (settings : Settings)
    (last0 : num) :
  s_unit settings = Mgdl →
  truthy_opt (bgnow_last data) = Some last0 →
  graph_header_color (renderGraph data (e :: es) settings)
    = number_fill (renderNumber now data settings).
Proof.
  intros Hu Hl. unfold renderGraph, renderNumber, scaled18.
  rewrite Hl, Hu. simpl.
  apply truthy_opt_Some in Hl as [_ Ht]. by rewrite Ht.
Qed.

(** And every marker has the colour Number mode gives its sample. *)
Lemma marker_color_agrees_mgdl (data : NightscoutResponse)
    (e : NightscoutEntry) (es : list NightscoutEntry) (settings : Settings)
    (i : nat) (s : NightscoutEntry) :
  s_unit settings = Mgdl →
  sort_by (λ a b, date a - date b) (e :: es) !! i = Some s →
  truthy (sgv s) = true →
  ∃ fills, graph_fills (renderGraph data (e :: es) settings) = Some fills ∧
           fills !! i = number_color_of settings (sgv s).
Proof.
  intros Hu Hs Ht. unfold renderGraph, graph_fills, scaled18. rewrite Hu.
  eexists. split; [reflexivity|]. cbn [g_circles].
  rewrite list_lookup_fmap, list_lookup_imap, list_lookup_fmap, Hs.
  unfold number_color_of, renderNumber, bgnow_last. simpl.
  by rewrite Ht, Hu.
Qed.

(** C1 fails in mmol/L. With the default thresholds and a reading of
    100 mg/dL, Number mode compares the converted 5.6 with the thresholds as
    configured (5.6 <= 55: urgent); Graph mode divides the thresholds by 18
    and finds the same reading in range, for the markers and for the
    header. *)
Theorem number_and_graph_disagree_in_mmol :
  let settings := mergeSettings mmol_settings in
  let data := reading (ofZ 100) None in
  let history := [sample 100 1; sample 100 2] in
  number_fill (renderNumber n0 data settings) = Some (urgentColor settings) ∧
  graph_fills (renderGraph data history settings)
    = Some [inRangeColor settings; inRangeColor settings] ∧
  graph_header_color (renderGraph data history settings)
    = Some (inRangeColor settings) ∧
  urgentColor settings ≠ inRangeColor settings.
Proof. repeat split; done. Qed.

(* ===================================================================== *)
(** ** The fetch cycle *)
(* ===================================================================== *)

Lemma get_instance_Some (c : string) (w : World) (l : loc) (i : Instance) :
  get_instance c w = Some (l, i) ↔
  instances w !! c = Some l ∧ heap w !! l = Some i.
Proof.
  unfold get_instance. destruct (instances w !! c) as [l'|]; simpl.
  - destruct (heap w !! l') as [i'|] eqn:E; simpl.
    + split; [intros [= <- <-]; done | intros [[= <-] H]; congruence].
    + split; [done | intros [[= <-] H]; congruence].
  - split; [done | by intros [? _]].
Qed.

Lemma get_instance_update (c : string) (w : World) (l : loc) (i : Instance)
    (f : Instance → Instance) :
  get_instance c w = Some (l, i) →
  get_instance c (update_instance l f w) = Some (l, f i).
Proof.
  rewrite !get_instance_Some. intros [Hc Hl]. split; [done|].
  simpl. rewrite lookup_alter_eq, Hl. done.
Qed.

Lemma S_eqb (n : nat) : (S n =? n)%nat = false.
Proof. apply Nat.eqb_neq. lia. Qed.

Lemma clear_both (i : Instance) (w : World) :
  clearTimeout (renderTimeout i) (clearTimeout (fetchTimeout i) w)
  = set_timers (cleared i) w.
Proof.
  unfold cleared. destruct w, (fetchTimeout i), (renderTimeout i); done.
Qed.

Lemma cleared_held (i : Instance) (m : gmap handle Timer) (h : handle) :
  fetchTimeout i = Some h ∨ renderTimeout i = Some h →
  cleared i m !! h = None.
Proof.
  unfold cleared. intros [-> | ->]; [|apply lookup_delete_eq].
  destruct (renderTimeout i) as [h'|]; [|apply lookup_delete_eq].
  destruct (decide (h' = h)) as [->|Hne]; [apply lookup_delete_eq|].
  rewrite lookup_delete_ne by done. apply lookup_delete_eq.
Qed.

(** The last part of a successful call, in a world where the key is still
    registered with the object [l] and a snapshot is stored: the picture is
    set, the render timer is replaced, and a fetch timer with the computed
    delay is stored in the instance. *)
Lemma fetchAndRender_schedule_spec (now : num) (c : string) (s : HostSettings)
    (m : Settings) (data : NightscoutResponse) (w : World) (l : loc)
    (i : Instance) (stored : NightscoutResponse) :
  get_instance c w = Some (l, i) →
  lastResponse i = Some stored →
  let w' := fetchAndRender_schedule now l c s m data w in
  let hr := nextHandle w in
  let hf := S (nextHandle w) in
  get_instance c w'
    = Some (l, set_fetchTimeout (Some hf) (set_renderTimeout (Some hr) i)) ∧
  timers w' !! hf
    = Some {| callback := CbFetch c s; delay := nextFetchDelay now data |} ∧
  timers w' !! hr
    = Some {| callback := CbRender c (hostOf m); delay := ofZ 60000 |} ∧
  (∃ svg, calls w' = calls w ++ [SetImage c svg]) ∧
  inflight w' = inflight w ∧ nextRequest w' = nextRequest w.
Proof.
  intros Hi Hs. unfold fetchAndRender_schedule, render. rewrite Hi, Hs.
  apply get_instance_Some in Hi as [Hc Hl].
  destruct (renderTimeout i) as [h|]; simpl.
  all: repeat split; try (eexists; reflexivity).
  all: try (apply get_instance_Some; split; [done|]; simpl;
            rewrite lookup_alter_eq, lookup_alter_eq, Hl; done).
  all: try apply lookup_insert_eq.
  all: rewrite lookup_insert_ne by lia; apply lookup_insert_eq.
Qed.

(** The timers that were pending before: the last part of the call cancels
    the render timer the instance holds (inside [render]) and no other.  In
    particular a fetch timer that is pending when the call stores its own
    stays pending. *)
Lemma fetchAndRender_schedule_timers (now : num) (c : string)
    (s : HostSettings) (m : Settings) (data : NightscoutResponse) (w : World)
    (l : loc) (i : Instance) (stored : NightscoutResponse) (h : handle) :
  get_instance c w = Some (l, i) →
  lastResponse i = Some stored →
  (h < nextHandle w)%nat →
  timers (fetchAndRender_schedule now l c s m data w) !! h
  = if decide (renderTimeout i = Some h) then None else timers w !! h.
Proof.
  intros Hi Hs Hlt. unfold fetchAndRender_schedule, render. rewrite Hi, Hs.
  destruct (renderTimeout i) as [h'|]; simpl.
  all: rewrite !lookup_insert_ne by lia.
  - case_decide as Hh.
    + injection Hh as ->. apply lookup_delete_eq.
    + apply lookup_delete_ne. congruence.
  - by repeat case_decide.
Qed.

Lemma fetchAndRender_schedule_keeps_fetch_timer (now : num) (c : string)
    (s : HostSettings) (m : Settings) (data : NightscoutResponse) (w : World)
    (l : loc) (i : Instance) (stored : NightscoutResponse) (h : handle)
    (t : Timer) :
  get_instance c w = Some (l, i) →
  lastResponse i = Some stored →
  fetchTimeout i = Some h → renderTimeout i ≠ Some h →
  (h < nextHandle w)%nat → timers w !! h = Some t →
  let w' := fetchAndRender_schedule now l c s m data w in
  timers w' !! h = Some t ∧
  ∃ i', get_instance c w' = Some (l, i') ∧
        fetchTimeout i' = Some (S (nextHandle w)) ∧
        S (nextHandle w) ≠ h.
Proof.
  intros Hi Hs Hf Hr Hlt Ht w'. subst w'. split.
  - rewrite (fetchAndRender_schedule_timers now c s m data w l i stored h)
      by done.
    by case_decide.
  - destruct (fetchAndRender_schedule_spec now c s m data w l i stored Hi Hs)
      as (Hi' & _).
    eexists. split; [exact Hi'|]. split; [done|]. lia.
Qed.

(** *** The delay of the next fetch *)

Lemma nextFetchDelay_default (now : num) (data : NightscoutResponse) :
  buckets data ≫= head = None ∨ truthy_opt (bgnow_mills data) = None →
  nextFetchDelay now data = ofZ 30000.
Proof.
  unfold nextFetchDelay. intros [-> | ->]; [done|].
  by destruct (buckets data ≫= head).
Qed.

Lemma min_with_30s (x : num) :
  (x <? ofZ 300000) = true →
  (min_list [x; ofZ 30000] <=? ofZ 30000) = true.
Proof.
  destruct x as [| |q|]; try done. intros _.
  unfold min_list. cbn [foldr]. change (min2 (ofZ 30000) PosInf) with (ofZ 30000).
  unfold min2, ofZ. destruct (Fin q <=? Fin (inject_Z 30000)) eqn:E; [done|].
  by apply leb_Fin.
Qed.

(** The program never waits longer than 30 seconds after a success. *)
Lemma nextFetchDelay_at_most_30s (now : num) (data : NightscoutResponse) :
  (nextFetchDelay now data <=? ofZ 30000) = true.
Proof.
  unfold nextFetchDelay.
  destruct (buckets data ≫= head) as [b|]; [|done].
  destruct (truthy_opt (bgnow_mills data)) as [m|]; [|done].
  destruct (_ >? now); [|done]. simpl.
  destruct (_ <? ofZ 300000) eqn:E; [|done].
  by apply min_with_30s.
Qed.

Lemma nextFetchDelay_estimate (now : num) (data : NightscoutResponse)
    (b : Bucket) (m f t n : Q) :
  buckets data ≫= head = Some b →
  truthy_opt (bgnow_mills data) = Some (Fin m) →
  fromMills b = Fin f → toMills b = Fin t → now = Fin n →
  let estimate := (m + (t - f) + 15000)%Q in
  ((n < estimate)%Q ∧ (estimate - n < 300000)%Q →
   ∃ d, nextFetchDelay now data = Fin d ∧
        (d == Qmin (estimate - n) 30000)%Q) ∧
  (¬ ((n < estimate)%Q ∧ (estimate - n < 300000)%Q) →
   nextFetchDelay now data = ofZ 30000).
Proof.
  intros Hb Hm Hf Ht -> estimate. unfold nextFetchDelay.
  rewrite Hb, Hm, Hf, Ht.
  change (Fin m + (Fin t - Fin f) + ofZ 15000)
    with (Fin (Qred (Qred (m + Qred (t + Qred (- f))) + 15000))).
  set (nr := Qred (Qred (m + Qred (t + Qred (- f))) + 15000)).
  assert (Hnr : (nr == estimate)%Q).
  { unfold nr, estimate. rewrite !Qred_correct. ring. }
  change (Fin nr - Fin n) with (Fin (Qred (nr + Qred (- n)))).
  set (x := Qred (nr + Qred (- n))).
  assert (Hx : (x == estimate - n)%Q).
  { unfold x. rewrite !Qred_correct, Hnr. ring. }
  unfold gtb.
  destruct (Fin n <? Fin nr) eqn:E1; cbn [andb].
  - apply ltb_Fin in E1. rewrite Hnr in E1.
    destruct (Fin x <? ofZ 300000) eqn:E2.
    + apply ltb_Fin in E2. rewrite Hx in E2.
      split; [|intros H; exfalso; apply H; split; [exact E1 | exact E2]].
      intros _.
      unfold min_list. cbn [foldr].
      change (min2 (ofZ 30000) PosInf) with (Fin 30000).
      change (min2 (Fin x) (Fin 30000))
        with (if Fin x <=? Fin 30000 then Fin x else Fin 30000).
      destruct (Fin x <=? Fin 30000) eqn:E3.
      * apply leb_Fin in E3. exists x. split; [done|].
        rewrite Hx in E3. rewrite Hx. symmetry. by apply Q.min_l.
      * exists 30000%Q. split; [done|]. symmetry. apply Q.min_r.
        rewrite <- Hx.
        destruct (Qlt_le_dec 30000 x) as [H|H]; [by apply Qlt_le_weak|].
        apply leb_Fin in H. congruence.
    + split; [|done]. intros [_ H]. rewrite <- Hx in H.
      apply ltb_Fin in H. change (ofZ 300000) with (Fin 300000) in E2.
      congruence.
  - split; [|done]. intros [H _]. rewrite <- Hnr in H.
    apply ltb_Fin in H. congruence.
Qed.

(** The [catch] block, in any world where the object [l] is in the heap. *)
Lemma fetch_failed_spec (c : string) (s : HostSettings) (w : World) (l : loc)
    (i : Instance) :
  heap w !! l = Some i →
  let w' := fetch_failed l c s w in
  heap w' !! l = Some (set_fetchTimeout (Some (nextHandle w)) i) ∧
  timers w' !! nextHandle w
    = Some {| callback := CbFetch c s; delay := ofZ 60000 |} ∧
  calls w' = calls w ++ [ShowAlert c] ∧
  instances w' = instances w ∧ inflight w' = inflight w ∧
  nextRequest w' = nextRequest w.
Proof.
  intros Hl. unfold fetch_failed. simpl.
  rewrite lookup_alter_eq, Hl, lookup_insert_eq. done.
Qed.

Section FetchCycle.

Local Arguments Nat.eqb : simpl never.

Variable URL_valid : string → bool.
Variables (c : string) (s : HostSettings) (w : World) (l : loc)
          (i : Instance) (base : string).
Hypothesis Hinst : get_instance c w = Some (l, i).
Hypothesis Hurl : truthy_str (h_nightscoutUrl s) = Some base.
Hypothesis Hvalid : URL_valid base = true.

Lemma fetchAndRender_suspends (force : bool) :
  fetchAndRender URL_valid c s force w
  = await_fetch (properties_request base s)
      (AwaitProperties l c s (mergeSettings s))
      (set_timers (cleared i) w).
Proof.
  unfold fetchAndRender. rewrite Hinst, clear_both. simpl.
  by rewrite Hurl, Hvalid.
Qed.

(** The world in which the last part of a successful call runs: both
    requests are in the log, the snapshot is stored, and so is the new
    history when there is one. *)
Lemma alone_reaches_schedule (now : num) (force : bool)
    (data : NightscoutResponse) (e : Reply (list NightscoutEntry))
    (store : Instance → Instance) :
  (e = HttpReply true None → False) → e ≠ NetworkError →
  store = match e with
          | HttpReply true (Some es) => set_lastEntries (Some es)
          | _ => id
          end →
  ∃ w0,
    fetchAndRender_alone URL_valid now c s force
      (HttpReply true (Some data)) e w
    = fetchAndRender_schedule now l c s (mergeSettings s) data w0 ∧
    get_instance c w0 = Some (l, store (set_lastResponse (Some data) i)) ∧
    calls w0
    = calls w ++ [Fetch (nextRequest w) (properties_request base s);
                  Fetch (S (nextRequest w)) (entries_request base s)] ∧
    nextHandle w0 = nextHandle w ∧
    timers w0 = cleared i (timers w).
Proof.
  intros Hparse Hnet ->.
  unfold fetchAndRender_alone. rewrite fetchAndRender_suspends.
  simpl. rewrite S_eqb.
  unfold fetchAndRender_properties. simpl. rewrite lookup_insert_eq.
  simpl. rewrite Hurl, Hvalid. simpl. rewrite S_eqb.
  unfold fetchAndRender_entries. simpl. rewrite lookup_insert_eq.
  apply get_instance_Some in Hinst as [Hc Hl].
  destruct e as [|[] [es|]]; try done.
  all: eexists; split; [reflexivity|]; simpl.
  all: rewrite <- app_assoc; split; [|done].
  all: apply get_instance_Some; split; [done|]; simpl.
  all: rewrite ?lookup_alter_eq, Hl; done.
Qed.

(** A call that runs alone cancels the timers the instance held when it
    started. *)
Lemma fetchAndRender_alone_cancels_held (now : num) (force : bool)
    (data : NightscoutResponse) (es : list NightscoutEntry) (h : handle) :
  fetchTimeout i = Some h ∨ renderTimeout i = Some h →
  (h < nextHandle w)%nat →
  timers (fetchAndRender_alone URL_valid now c s force
            (HttpReply true (Some data)) (HttpReply true (Some es)) w) !! h
  = None.
Proof.
  intros Hh Hlt.
  destruct (alone_reaches_schedule now force data
              (HttpReply true (Some es)) _ ltac:(done) ltac:(done) eq_refl)
    as (w0 & Heq & Hi0 & _ & Hn0 & Ht0).
  rewrite Heq.
  rewrite (fetchAndRender_schedule_timers now c s (mergeSettings s) data w0
             l _ data h Hi0 eq_refl) by lia.
  case_decide; [done|]. rewrite Ht0. by apply cleared_held.
Qed.

(** C2 (as the program has it). After a successful fetch the instance
    holds a fetch timer whose delay is 30 seconds by default.  When the
    snapshot has a first bucket and a reading time, the next reading is
    expected at the reading time plus the length of the bucket plus 15
    seconds; if that is strictly later than now and less than 5 minutes
    away the delay is the smaller of the time until then and 30 seconds,
    otherwise it is 30 seconds. *)
Theorem next_fetch_after_success (now : num) (force : bool)
    (data : NightscoutResponse) (es : list NightscoutEntry) :
  let w' :=
    fetchAndRender_alone URL_valid now c s force
      (HttpReply true (Some data)) (HttpReply true (Some es)) w in
  (∃ i' h,
     get_instance c w' = Some (l, i') ∧ fetchTimeout i' = Some h ∧
     timers w' !! h
     = Some {| callback := CbFetch c s;
               delay := nextFetchDelay now data |}) ∧
  (nextFetchDelay now data <=? ofZ 30000) = true ∧
  (buckets data ≫= head = None ∨ truthy_opt (bgnow_mills data) = None →
   nextFetchDelay now data = ofZ 30000) ∧
  (∀ b m f t n,
     buckets data ≫= head = Some b →
     truthy_opt (bgnow_mills data) = Some (Fin m) →
     fromMills b = Fin f → toMills b = Fin t → now = Fin n →
     let estimate := (m + (t - f) + 15000)%Q in
     ((n < estimate)%Q ∧ (estimate - n < 300000)%Q →
      ∃ d, nextFetchDelay now data = Fin d ∧
           (d == Qmin (estimate - n) 30000)%Q) ∧
     (¬ ((n < estimate)%Q ∧ (estimate - n < 300000)%Q) →
      nextFetchDelay now data = ofZ 30000)).
Proof.
  intros w'. split; [|split; [|split]].
  - destruct (alone_reaches_schedule now force data
                (HttpReply true (Some es)) _ ltac:(done) ltac:(done) eq_refl)
      as (w0 & Heq & Hi0 & _).
    subst w'. rewrite Heq.
    destruct (fetchAndRender_schedule_spec now c s (mergeSettings s) data
                w0 l _ data Hi0 eq_refl) as (Hi' & Hf & _).
    eexists _, _. split; [exact Hi'|]. split; [reflexivity|]. exact Hf.
  - apply nextFetchDelay_at_most_30s.
  - apply nextFetchDelay_default.
  - intros b m f t n Hb Hm Hf Ht Hn.
    by apply (nextFetchDelay_estimate now data b m f t n).
Qed.


(** C4. When the properties request fails (the status is not OK, the body
    does not parse, or the request itself fails) the alert is shown, the
    stored snapshot and history are the ones from before the call, no
    second request is made, and the instance holds a fetch timer of 60
    seconds. *)
Theorem primary_failure_alert_and_retry (now : num) (force : bool)
    (p : Reply NightscoutResponse) (e : Reply (list NightscoutEntry)) :
  (∀ data, p ≠ HttpReply true (Some data)) →
  let w' := fetchAndRender_alone URL_valid now c s force p e w in
  ∃ i',
    calls w' = calls w ++ [Fetch (nextRequest w) (properties_request base s);
                           ShowAlert c] ∧
    get_instance c w' = Some (l, i') ∧
    lastResponse i' = lastResponse i ∧
    lastEntries i' = lastEntries i ∧
    fetchTimeout i' = Some (nextHandle w) ∧
    timers w' !! nextHandle w
    = Some {| callback := CbFetch c s; delay := ofZ 60000 |}.
Proof.
  intros Hp w'. subst w'.
  unfold fetchAndRender_alone. rewrite fetchAndRender_suspends.
  simpl. rewrite S_eqb.
  unfold fetchAndRender_properties. simpl. rewrite lookup_insert_eq.
  apply get_instance_Some in Hinst as [Hc Hl].
  destruct p as [|[] [d|]]; try (by destruct (Hp d)).
  all: simpl; rewrite Nat.eqb_refl; simpl.
  all: eexists; rewrite <- app_assoc.
  all: split; [reflexivity|].
  all: split; [apply get_instance_Some; split; [done|]; simpl;
               rewrite lookup_alter_eq, Hl; reflexivity|].
  all: repeat split; apply lookup_insert_eq.
Qed.

End FetchCycle.

(* ===================================================================== *)
(** ** Key presses *)
(* ===================================================================== *)

(** [render] for a key that is registered. *)
Lemma render_spec (now : num) (c : string)
    (s : HostSettings) (w : World) (l : loc) (i : Instance) :
  get_instance c w = Some (l, i) →
  let w' := render now c s w in
  (lastResponse i = None → w' = w) ∧
  (∀ data, lastResponse i = Some data →
     (∃ svg, calls w' = calls w ++ [SetImage c svg]) ∧
     get_instance c w'
       = Some (l, set_renderTimeout (Some (nextHandle w)) i) ∧
     timers w' !! nextHandle w
       = Some {| callback := CbRender c s; delay := ofZ 60000 |}) ∧
  inflight w' = inflight w ∧ nextRequest w' = nextRequest w.
Proof.
  intros Hi. unfold render. rewrite Hi.
  apply get_instance_Some in Hi as [Hc Hl].
  destruct (lastResponse i) as [d|]; [|done].
  destruct (renderTimeout i) as [h|]; simpl.
  all: split; [done|]; split; [|done].
  all: intros ? _; split; [eexists; reflexivity|].
  all: split; [|apply lookup_insert_eq].
  all: apply get_instance_Some; split; [done|]; simpl.
  all: rewrite lookup_alter_eq, Hl; done.
Qed.

Lemma onKeyUp_unknown_key (URL_valid : string → bool) (now : num)
    (c : string) (s : HostSettings) (w : World) :
  get_instance c w = None → onKeyUp URL_valid now c s w = w.
Proof. intros H. unfold onKeyUp. by rewrite H. Qed.

(** C7. On a key release with a recorded press, a hold of 500 ms or more
    calls [fetchAndRender] with [forceRefresh = true], which sends the
    properties request when a site is configured; a shorter hold toggles
    the display mode and calls [render], and no request is made.  A release
    without a recorded press changes nothing.  For finite clock values the
    hold is long exactly when release minus press is at least 500. *)
Theorem onKeyUp_short_or_long (URL_valid : string → bool) (now : num)
    (c : string) (s : HostSettings) (w : World) (l : loc) (i : Instance) :
  get_instance c w = Some (l, i) →
  let w' := onKeyUp URL_valid now c s w in
  (truthy_opt (keyDownTime i) = None → w' = w) ∧
  (∀ t, truthy_opt (keyDownTime i) = Some t →
     let released := update_instance l (set_keyDownTime None) w in
     let toggled :=
       match displayMode i with NUMBER => GRAPH | GRAPH => NUMBER end in
     ((now - t >=? LONG_PRESS_DURATION) = true →
      w' = fetchAndRender URL_valid c s true released ∧
      (∀ base, truthy_str (h_nightscoutUrl s) = Some base →
               URL_valid base = true →
               calls w' = calls w ++ [Fetch (nextRequest w)
                                        (properties_request base s)])) ∧
     ((now - t >=? LONG_PRESS_DURATION) = false →
      w' = render now c s
             (update_instance l (set_displayMode toggled) released) ∧
      (∃ i', get_instance c w' = Some (l, i') ∧ displayMode i' = toggled ∧
             keyDownTime i' = None) ∧
      (calls w' = calls w ∨ ∃ svg, calls w' = calls w ++ [SetImage c svg]) ∧
      inflight w' = inflight w ∧ nextRequest w' = nextRequest w)) ∧
  (∀ tq nq : Q,
     (Fin nq - Fin tq >=? LONG_PRESS_DURATION) = true ↔ (500 <= nq - tq)%Q).
Proof.
  intros Hi w'. subst w'. unfold onKeyUp. rewrite Hi.
  split; [by intros ->|]. split.
  - intros t Ht. rewrite Ht.
    set (released := update_instance l (set_keyDownTime None) w).
    set (toggled := match displayMode i with
                    | NUMBER => GRAPH | GRAPH => NUMBER end).
    split; intros E; rewrite E.
    + split; [done|]. intros base Hurl Hvalid.
      pose proof (get_instance_update c w l i (set_keyDownTime None) Hi) as Hr.
      rewrite (fetchAndRender_suspends URL_valid c s released l _ base
                 Hr Hurl Hvalid).
      done.
    + split; [done|].
      pose proof (get_instance_update c w l i (set_keyDownTime None) Hi) as Hr.
      pose proof (get_instance_update c released l _
                    (set_displayMode toggled) Hr) as Ht'.
      destruct (render_spec now c s _ l _ Ht')
        as (Hnone & Hsome & Hin & Hrq).
      rewrite Hin, Hrq.
      destruct (lastResponse i) as [d|] eqn:Hd.
      * destruct (Hsome d Hd) as ([svg Hcalls] & Hg & _).
        split; [by eexists|]. split; [|done]. right. by exists svg.
      * rewrite (Hnone Hd). split; [by eexists|]. split; [|done]. by left.
  - intros tq nq.
    change (Fin nq - Fin tq >=? LONG_PRESS_DURATION)
      with (Fin 500 <=? Fin (Qred (nq + Qred (- tq)))).
    rewrite leb_Fin, !Qred_correct. reflexivity.
Qed.

Lemma onKeyUp_short_or_long_witness :
  get_instance "k" (pressed_at 1000)
    = Some (0%nat, set_keyDownTime (Some (ofZ 1000)) new_instance) ∧
  let w' := onKeyUp any_URL (ofZ 1499) "k" site_settings (pressed_at 1000) in
  ∃ i', get_instance "k" w' = Some (0%nat, i') ∧ displayMode i' = GRAPH ∧
        keyDownTime i' = None.
Proof.
  split; [vm_compute; reflexivity|].
  destruct (onKeyUp_short_or_long any_URL (ofZ 1499) "k" site_settings
              (pressed_at 1000) 0%nat
              (set_keyDownTime (Some (ofZ 1000)) new_instance)
              ltac:(vm_compute; reflexivity)) as (_ & Hpressed & _).
  destruct (Hpressed (ofZ 1000) eq_refl) as [_ Hshort].
  destruct (Hshort eq_refl) as (_ & Hmode & _).
  exact Hmode.
Defined.

(** The two holds of the specification: 499 ms toggles and sends nothing,
    500 ms sends the properties request and leaves the mode alone. *)
Example hold_499_toggles :
  let w' := onKeyUp any_URL (ofZ 1499) "k" site_settings (pressed_at 1000) in
  (displayMode <$> heap w' !! 0%nat) = Some GRAPH ∧ calls w' = [].
Proof. vm_compute. done. Qed.

Example hold_500_refreshes :
  let w' := onKeyUp any_URL (ofZ 1500) "k" site_settings (pressed_at 1000) in
  (displayMode <$> heap w' !! 0%nat) = Some NUMBER ∧
  calls w' = [Fetch 0%nat (properties_request "https://ns.example" site_settings)].
Proof. vm_compute. done. Qed.

(** *** Witnesses for the fetch cycle *)

Lemma next_fetch_after_success_witness :
  get_instance "k" world_k = Some (0%nat, new_instance) ∧
  truthy_str (h_nightscoutUrl site_settings) = Some "https://ns.example"%string ∧
  any_URL "https://ns.example" = true ∧
  let w' :=
    fetchAndRender_alone any_URL (ofZ 1195000) "k" site_settings false
      (HttpReply true (Some (snapshot 100 900000)))
      (HttpReply true (Some [sample 100 1; sample 110 2])) world_k in
  ∃ i' h,
    get_instance "k" w' = Some (0%nat, i') ∧ fetchTimeout i' = Some h ∧
    timers w' !! h
    = Some {| callback := CbFetch "k" site_settings;
              delay := nextFetchDelay (ofZ 1195000) (snapshot 100 900000) |}.
Proof.
  split; [vm_compute; reflexivity|]. split; [reflexivity|].
  split; [reflexivity|].
  apply (next_fetch_after_success any_URL "k" site_settings world_k 0%nat
           new_instance "https://ns.example"
           ltac:(vm_compute; reflexivity) eq_refl eq_refl
           (ofZ 1195000) false (snapshot 100 900000)
           [sample 100 1; sample 110 2]).
Defined.

(** The three cases of the specification, with the reading taken at
    900 000 ms and a bucket of 300 000 ms: the next reading is expected at
    1 215 000 ms. *)
Example estimate_20s_ahead :
  nextFetchDelay (ofZ 1195000) (snapshot 100 900000) = ofZ 20000.
Proof. reflexivity. Qed.

Example estimate_10min_ahead :
  nextFetchDelay (ofZ 615000) (snapshot 100 900000) = ofZ 30000.
Proof. reflexivity. Qed.

Example estimate_in_the_past :
  nextFetchDelay (ofZ 1300000) (snapshot 100 900000) = ofZ 30000.
Proof. reflexivity. Qed.

(** C2, the claim as stated fails: the estimate starts from the time of the
    reading, not from the end of the bucket.  With a reading taken at
    100 000 ms and a bucket that ends at 300 000 ms, the estimate of the
    specification at 595 000 ms is 20 s ahead, and the program waits 30 s. *)
Lemma delay_is_not_from_the_bucket_end :
  spec_nextFetchDelay (ofZ 595000) (snapshot 100 100000) = ofZ 20000 ∧
  nextFetchDelay (ofZ 595000) (snapshot 100 100000) = ofZ 30000 ∧
  nextFetchDelay (ofZ 595000) (snapshot 100 100000)
    ≠ spec_nextFetchDelay (ofZ 595000) (snapshot 100 100000).
Proof. repeat split; done. Qed.



Lemma primary_failure_alert_and_retry_witness :
  get_instance "k" world_k = Some (0%nat, new_instance) ∧
  truthy_str (h_nightscoutUrl site_settings) = Some "https://ns.example"%string ∧
  any_URL "https://ns.example" = true ∧
  (∀ data : NightscoutResponse, HttpReply false None ≠ HttpReply true (Some data)) ∧
  let w' :=
    fetchAndRender_alone any_URL (ofZ 1000000) "k" site_settings false
      (HttpReply false None) (HttpReply true (Some [])) world_k in
  ∃ i',
    calls w'
    = calls world_k
      ++ [Fetch (nextRequest world_k)
            (properties_request "https://ns.example" site_settings);
          ShowAlert "k"] ∧
    get_instance "k" w' = Some (0%nat, i') ∧
    lastResponse i' = lastResponse new_instance ∧
    lastEntries i' = lastEntries new_instance ∧
    fetchTimeout i' = Some (nextHandle world_k) ∧
    timers w' !! nextHandle world_k
    = Some {| callback := CbFetch "k" site_settings; delay := ofZ 60000 |}.
Proof.
  split; [vm_compute; reflexivity|]. split; [reflexivity|].
  split; [reflexivity|]. split; [done|].
  apply (primary_failure_alert_and_retry any_URL "k" site_settings world_k
           0%nat new_instance "https://ns.example"
           ltac:(vm_compute; reflexivity) eq_refl eq_refl
           (ofZ 1000000) false (HttpReply false None)
           (HttpReply true (Some []))).
  done.
Defined.

(* ===================================================================== *)
(** ** Timers *)
(* ===================================================================== *)

(** [onWillDisappear] cancels the two handles the instance holds and
    removes the instance. *)
Lemma onWillDisappear_cancels (c : string) (w : World) (l : loc)
    (i : Instance) (h : handle) :
  get_instance c w = Some (l, i) →
  fetchTimeout i = Some h ∨ renderTimeout i = Some h →
  timers (onWillDisappear c w) !! h = None ∧
  get_instance c (onWillDisappear c w) = None.
Proof.
  intros Hi Hh. unfold onWillDisappear. rewrite Hi, clear_both. simpl.
  split.
  - by apply cleared_held.
  - unfold get_instance. simpl. by rewrite lookup_delete_eq.
Qed.

(** [render] cancels the render timer the instance holds right before it
    stores the new one. *)
Lemma render_cancels_previous (now : num) (c : string) (s : HostSettings)
    (w : World) (l : loc) (i : Instance) (data : NightscoutResponse)
    (h : handle) :
  get_instance c w = Some (l, i) → lastResponse i = Some data →
  renderTimeout i = Some h → h ≠ nextHandle w →
  timers (render now c s w) !! h = None.
Proof.
  intros Hi Hd Hh Hne. unfold render. rewrite Hi, Hd, Hh. simpl.
  rewrite lookup_insert_ne by done. apply lookup_delete_eq.
Qed.

(** C8 does not hold when two calls of [fetchAndRender] for one key
    overlap: a call cancels the fetch timer at its start and stores its own
    after the two [await fetch], without cancelling the one stored in
    between.  After the run [overlapping_fetches] the key "k" has two pending
    fetch timers (1 and 3) and holds only the second.  When the key
    disappears timer 1 stays pending; when the key is back and timer 1
    fires, it sends a request for "k" next to the one of the new instance. *)
Theorem overlapping_fetches_leave_two_timers :
  let t := ofZ 1000000 in
  let w := run any_URL overlapping_fetches empty_world in
  length (pending_fetches "k" w) = 2%nat ∧
  (callback <$> timers w !! 1%nat) = Some (CbFetch "k" site_settings) ∧
  (callback <$> timers w !! 3%nat) = Some (CbFetch "k" site_settings) ∧
  (fetchTimeout <$> heap w !! 0%nat) = Some (Some 3%nat) ∧
  let w1 := step any_URL t (WillDisappear "k") w in
  get_instance "k" w1 = None ∧
  pending_fetches "k" w1 = [1%nat] ∧
  let w2 := step any_URL t (WillAppear "k" site_settings) w1 in
  let w3 := step any_URL t (TimerFires 1%nat) w2 in
  calls w2
  = calls w1
    ++ [Fetch 4%nat (properties_request "https://ns.example" site_settings)] ∧
  calls w3
  = calls w2
    ++ [Fetch 5%nat (properties_request "https://ns.example" site_settings)].
Proof. vm_compute. repeat split; reflexivity. Qed.

(* ===================================================================== *)
(** * The rest of the program *)
(* ===================================================================== *)
(** ** Settings and the two numbers computed from them *)

Lemma mergeSettings_hostOf (s : Settings) : mergeSettings (hostOf s) = s.
Proof. by destruct s. Qed.

(** X1. Merging the defaults into settings that are already merged changes
    nothing: [render], which merges again what [fetchAndRender] passes it,
    draws with the settings the fetch was made with. *)
Theorem mergeSettings_idempotent (h : HostSettings) :
  mergeSettings (hostOf (mergeSettings h)) = mergeSettings h.
Proof. apply mergeSettings_hostOf. Qed.

(** X2. Whatever the snapshot and the clock are, the delay of the fetch
    after a success is more than 0 and at most 30 000 ms. *)
Theorem nextFetchDelay_bounds (now : num) (data : NightscoutResponse) :
  (nextFetchDelay now data >? n0) = true ∧
  (nextFetchDelay now data <=? ofZ 30000) = true.
Proof.
  split; [|apply nextFetchDelay_at_most_30s].
  unfold nextFetchDelay.
  destruct (buckets data ≫= head) as [b|]; [|done].
  destruct (truthy_opt (bgnow_mills data)) as [m|]; [|done].
  set (nextRead := m + (toMills b - fromMills b) + ofZ 15000).
  destruct (nextRead >? now) eqn:E1; [|done]. cbn [andb].
  destruct (nextRead - now <? ofZ 300000) eqn:E2; [|done].
  destruct nextRead as [| |x|], now as [| |n|]; try done.
  unfold gtb in E1. apply ltb_Fin in E1.
  change (Fin x - Fin n) with (Fin (Qred (x + Qred (- n)))).
  set (d := Qred (x + Qred (- n))).
  assert (Hd : (0 < d)%Q).
  { unfold d. rewrite !Qred_correct. lra. }
  unfold min_list. cbn [foldr].
  change (min2 (ofZ 30000) PosInf) with (Fin 30000).
  change (min2 (Fin d) (Fin 30000))
    with (if Fin d <=? Fin 30000 then Fin d else Fin 30000).
  destruct (Fin d <=? Fin 30000); unfold gtb, n0, ofZ; by apply ltb_Fin.
Qed.

Lemma Qceiling_Qred (q : Q) : Qceiling (Qred q) = Qceiling q.
Proof. apply Qceiling_comp, Qred_correct. Qed.

(** X3. For a window of a whole number of hours (of at most a million)
    the entries request asks for 12 samples per hour. *)
Theorem entriesCount_whole_hours (s : Settings) (h : Z) :
  (0 <= h <= 1000000)%Z →
  graphHours s = ofZ h → entriesCount s = ofZ (12 * h).
Proof.
  intros _ Hh. unfold entriesCount. rewrite Hh.
  change (ofZ h * ofZ 60 / ofZ 5)
    with (Fin (Qred (Qred (inject_Z h * inject_Z 60) / inject_Z 5))).
  unfold ceil, ofZ. f_equal.
  rewrite Qceiling_Qred. 
  assert (E : (Qred (inject_Z h * inject_Z 60) / inject_Z 5 == inject_Z (12 * h))%Q).
  { rewrite Qred_correct, inject_Z_mult. field. }
  rewrite E. by rewrite Qceiling_Z.
Qed.

Lemma entriesCount_whole_hours_witness :
  (0 <= 8 <= 1000000)%Z ∧
  graphHours DEFAULT_SETTINGS = ofZ 8 ∧
  entriesCount DEFAULT_SETTINGS = ofZ (12 * 8).
Proof.
  split; [lia|]. split; [reflexivity|].
  apply (entriesCount_whole_hours DEFAULT_SETTINGS 8); [lia|reflexivity].
Defined.

(** ** [fetchAndRender], [render] and the handlers *)

Lemma fetchAndRender_no_url (URL_valid : string → bool) (c : string)
    (s : HostSettings) (force : bool) (w : World) (l : loc) (i : Instance) :
  get_instance c w = Some (l, i) →
  truthy_str (h_nightscoutUrl s) = None →
  fetchAndRender URL_valid c s force w = set_timers (cleared i) w.
Proof.
  intros Hi Hu. unfold fetchAndRender. rewrite Hi, clear_both. simpl.
  by rewrite Hu.
Qed.

(** X4. Without a site URL (absent or empty) [fetchAndRender] cancels the
    two timers the instance holds and does nothing else: no request, no
    host call, no new timer, the instance untouched.  The key stays idle
    until another event. *)
Theorem fetchAndRender_without_url (URL_valid : string → bool) (c : string)
    (s : HostSettings) (force : bool) (w : World) (l : loc) (i : Instance) :
  get_instance c w = Some (l, i) →
  truthy_str (h_nightscoutUrl s) = None →
  let w' := fetchAndRender URL_valid c s force w in
  calls w' = calls w ∧ inflight w' = inflight w ∧ heap w' = heap w ∧
  instances w' = instances w ∧
  timers w' = cleared i (timers w) ∧
  (∀ h, fetchTimeout i = Some h ∨ renderTimeout i = Some h →
        timers w' !! h = None) ∧
  (∀ h, timers w !! h = None → timers w' !! h = None).
Proof.
  intros Hi Hu. unfold fetchAndRender. rewrite Hi, clear_both. simpl.
  rewrite Hu. simpl. repeat split; try done.
  - intros h Hh. by apply cleared_held.
  - intros h Hh. unfold cleared.
    destruct (fetchTimeout i), (renderTimeout i);
      rewrite ?lookup_delete_None; tauto.
Qed.

(** a timer that fires for a key that is not registered *)
Lemma fetchAndRender_without_url_witness :
  get_instance "k" world_k = Some (0%nat, new_instance) ∧
  truthy_str (h_nightscoutUrl mmol_settings) = None ∧
  calls (fetchAndRender any_URL "k" mmol_settings false world_k)
    = calls world_k ∧
  inflight (fetchAndRender any_URL "k" mmol_settings false world_k)
    = inflight world_k.
Proof.
  split; [vm_compute; reflexivity|]. split; [reflexivity|].
  destruct (fetchAndRender_without_url any_URL "k" mmol_settings false
              world_k 0%nat new_instance
              ltac:(vm_compute; reflexivity) eq_refl) as (Hc & Hi & _).
  by split.
Defined.

(** X5. A timer that fires for a key that is not registered only leaves the
    timer table: [fetchAndRender] and [render] return at the lookup, so
    nothing is sent, drawn or scheduled. *)
Theorem stale_timer_is_noop (URL_valid : string → bool) (now : num)
    (h : handle) (t : Timer) (w : World) (c : string) (s : HostSettings) :
  timers w !! h = Some t →
  (callback t = CbFetch c s ∨ callback t = CbRender c s) →
  instances w !! c = None →
  step URL_valid now (TimerFires h) w = set_timers (delete h) w.
Proof.
  intros Ht Hc Hn. simpl. rewrite Ht.
  assert (Hg : get_instance c (set_timers (delete h) w) = None).
  { unfold get_instance. simpl. by rewrite Hn. }
  destruct Hc as [-> | ->]; unfold fetchAndRender, render; by rewrite Hg.
Qed.

(** the picture render sets *)
Lemma stale_timer_is_noop_witness :
  timers world_gone !! 1%nat
    = Some {| callback := CbFetch "k" site_settings; delay := ofZ 30000 |} ∧
  instances world_gone !! "k" = None ∧
  step any_URL (ofZ 1030000) (TimerFires 1%nat) world_gone
    = set_timers (delete 1%nat) world_gone.
Proof.
  split; [vm_compute; reflexivity|]. split; [vm_compute; reflexivity|].
  apply (stale_timer_is_noop any_URL (ofZ 1030000) 1%nat
           {| callback := CbFetch "k" site_settings; delay := ofZ 30000 |}
           world_gone "k" site_settings).
  - vm_compute. reflexivity.
  - by left.
  - vm_compute. reflexivity.
Defined.

(** X6. For a registered key with a stored snapshot, [render] sets exactly
    one picture: the number view in Number mode, the graph of the stored
    history in Graph mode, and the "No History" placeholder in Graph mode
    when no history has been stored yet.  It sets a timer that renders the
    key again with the same settings after 60000 ms, stores its handle in
    the instance and changes nothing else of it, and sends no request. *)
Theorem render_picture (now : num) (c : string) (s : HostSettings)
    (w : World) (l : loc) (i : Instance) (data : NightscoutResponse) :
  get_instance c w = Some (l, i) → lastResponse i = Some data →
  let w' := render now c s w in
  calls w'
  = calls w ++ [SetImage c
      match displayMode i with
      | NUMBER => renderNumber now data (mergeSettings s)
      | GRAPH => renderGraph data (default [] (lastEntries i)) (mergeSettings s)
      end] ∧
  (displayMode i = GRAPH → lastEntries i = None ∨ lastEntries i = Some [] →
   calls w' = calls w ++ [SetImage c SvgNoHistory]) ∧
  get_instance c w' = Some (l, set_renderTimeout (Some (nextHandle w)) i) ∧
  timers w' !! nextHandle w
    = Some {| callback := CbRender c s; delay := ofZ 60000 |} ∧
  inflight w' = inflight w ∧ nextRequest w' = nextRequest w ∧
  instances w' = instances w.
Proof.
  intros Hi Hd. unfold render. rewrite Hi, Hd.
  apply get_instance_Some in Hi as [Hc Hl].
  destruct (renderTimeout i) as [h|]; simpl.
  all: split; [done|]; split;
    [intros -> [-> | ->]; done|]; split;
    [|split; [apply lookup_insert_eq|done]].
  all: apply get_instance_Some; split; [done|]; simpl.
  all: by rewrite lookup_alter_eq, Hl.
Qed.
Lemma render_picture_witness :
  get_instance "k" world_graph
    = Some (0%nat,
            {| displayMode := GRAPH; keyDownTime := None;
               fetchTimeout := None; renderTimeout := None;
               lastResponse := Some (snapshot 100 900000);
               lastEntries := None |}) ∧
  calls (render (ofZ 1000000) "k" site_settings world_graph)
    = calls world_graph ++ [SetImage "k" SvgNoHistory] ∧
  timers (render (ofZ 1000000) "k" site_settings world_graph) !! 0%nat
    = Some {| callback := CbRender "k" site_settings; delay := ofZ 60000 |}.
Proof.
  split; [vm_compute; reflexivity|].
  destruct (render_picture (ofZ 1000000) "k" site_settings world_graph 0%nat
              _ (snapshot 100 900000)
              ltac:(vm_compute; reflexivity) eq_refl)
    as (_ & Hnone & _ & Htimer & _).
  split; [apply Hnone; [reflexivity|by left]|exact Htimer].
Defined.

Lemma render_calls (now : num) (c : string) (s : HostSettings)
    (w : World) (l : loc) (i : Instance) (data : NightscoutResponse) :
  get_instance c w = Some (l, i) → lastResponse i = Some data →
  calls (render now c s w)
  = calls w ++ [SetImage c
      match displayMode i with
      | NUMBER => renderNumber now data (mergeSettings s)
      | GRAPH => renderGraph data (default [] (lastEntries i)) (mergeSettings s)
      end].
Proof.
  intros Hi Hd. unfold render. rewrite Hi, Hd.
  by destruct (renderTimeout i).
Qed.

Lemma fetchAndRender_schedule_calls (now : num) (l : loc) (c : string)
    (s : HostSettings) (m : Settings) (data : NightscoutResponse) (w : World) :
  calls (fetchAndRender_schedule now l c s m data w)
  = calls (render now c (hostOf m) w).
Proof. reflexivity. Qed.

(** X7. After a call that succeeds without interleaving, the picture set is
    the rendering of the new snapshot in the mode the instance is in; in
    Graph mode it is drawn from the new history, or from the history stored
    before when the entries request was answered with a status that is not
    OK.  The mode and the recorded key press are unchanged. *)
Theorem success_shows_new_data (URL_valid : string → bool) (now : num)
    (c : string) (s : HostSettings) (force : bool) (w : World) (l : loc)
    (i : Instance) (base : string) (data : NightscoutResponse)
    (e : Reply (list NightscoutEntry)) :
  get_instance c w = Some (l, i) →
  truthy_str (h_nightscoutUrl s) = Some base →
  URL_valid base = true →
  e ≠ NetworkError → e ≠ HttpReply true None →
  let history :=
    match e with
    | HttpReply true (Some es) => es
    | _ => default [] (lastEntries i)
    end in
  let w' :=
    fetchAndRender_alone URL_valid now c s force
      (HttpReply true (Some data)) e w in
  calls w'
  = calls w ++ [Fetch (nextRequest w) (properties_request base s);
                Fetch (S (nextRequest w)) (entries_request base s);
                SetImage c
                  match displayMode i with
                  | NUMBER => renderNumber now data (mergeSettings s)
                  | GRAPH => renderGraph data history (mergeSettings s)
                  end] ∧
  ∃ i', get_instance c w' = Some (l, i') ∧
        lastResponse i' = Some data ∧
        displayMode i' = displayMode i ∧
        keyDownTime i' = keyDownTime i ∧
        lastEntries i' = match e with
                         | HttpReply true (Some es) => Some es
                         | _ => lastEntries i
                         end.
Proof.
  intros Hi Hu Hv Hnet Hparse history w'.
  destruct (alone_reaches_schedule URL_valid c s w l i base Hi Hu Hv now force
              data e _ ltac:(congruence) Hnet eq_refl)
    as (w0 & Heq & Hi0 & Hc0 & _).
  subst w'. rewrite Heq. split.
  - rewrite fetchAndRender_schedule_calls.
    rewrite (render_calls now c (hostOf (mergeSettings s)) w0 l _ data
               Hi0 ltac:(by destruct e as [|[] [?|]])).
    rewrite Hc0, <- app_assoc, mergeSettings_hostOf.
    subst history. by destruct e as [|[] [?|]].
  - destruct (fetchAndRender_schedule_spec now c s (mergeSettings s) data w0
                l _ data Hi0 ltac:(by destruct e as [|[] [?|]])) as (Hi' & _).
    eexists. split; [exact Hi'|]. by destruct e as [|[] [?|]].
Qed.

Lemma success_shows_new_data_witness :
  get_instance "k" world_graph
    = Some (0%nat,
            {| displayMode := GRAPH; keyDownTime := None;
               fetchTimeout := None; renderTimeout := None;
               lastResponse := Some (snapshot 100 900000);
               lastEntries := None |}) ∧
  truthy_str (h_nightscoutUrl site_settings) = Some "https://ns.example"%string ∧
  any_URL "https://ns.example" = true ∧
  ∃ i', get_instance "k"
          (fetchAndRender_alone any_URL (ofZ 1000000) "k" site_settings false
             (HttpReply true (Some (snapshot 120 950000)))
             (HttpReply true (Some [sample 100 1; sample 110 2]))
             world_graph) = Some (0%nat, i') ∧
        lastResponse i' = Some (snapshot 120 950000) ∧
        displayMode i' = GRAPH.
Proof.
  split; [vm_compute; reflexivity|]. split; [reflexivity|].
  split; [reflexivity|].
  destruct (success_shows_new_data any_URL (ofZ 1000000) "k" site_settings
              false world_graph 0%nat _ "https://ns.example"
              (snapshot 120 950000)
              (HttpReply true (Some [sample 100 1; sample 110 2]))
              ltac:(vm_compute; reflexivity) eq_refl eq_refl
              ltac:(done) ltac:(done))
    as (_ & i' & Hi' & Hd & Hm & _).
  exists i'. split; [exact Hi'|]. split; [exact Hd|]. exact Hm.
Defined.

(** X8. [onWillAppear] registers a new instance in Number mode with no
    snapshot, no history, no recorded press and no render timer, whatever
    was registered for the key before, and cancels no timer.  With a
    well-formed URL it sends the properties request; without a URL it sends
    nothing and schedules nothing. *)
Theorem onWillAppear_fresh (URL_valid : string → bool) (c : string)
    (s : HostSettings) (w : World) :
  let w' := onWillAppear URL_valid c s w in
  (∃ i', get_instance c w' = Some (nextLoc w, i') ∧
         displayMode i' = NUMBER ∧ keyDownTime i' = None ∧
         lastResponse i' = None ∧ lastEntries i' = None ∧
         renderTimeout i' = None) ∧
  (∀ h t, timers w !! h = Some t → h ≠ nextHandle w →
          timers w' !! h = Some t) ∧
  (truthy_str (h_nightscoutUrl s) = None →
   calls w' = calls w ∧ timers w' = timers w) ∧
  (∀ base, truthy_str (h_nightscoutUrl s) = Some base →
           URL_valid base = true →
           calls w' = calls w ++ [Fetch (nextRequest w)
                                    (properties_request base s)] ∧
           timers w' = timers w).
Proof.
  unfold onWillAppear.
  set (w1 := {| instances := <[c:=nextLoc w]> (instances w);
                heap := <[nextLoc w:=_]> (heap w); nextLoc := _;
                timers := timers w; nextHandle := nextHandle w;
                inflight := inflight w; nextRequest := nextRequest w;
                calls := calls w |}).
  assert (Hi : get_instance c w1 = Some (nextLoc w, new_instance)).
  { apply get_instance_Some. split; apply lookup_insert_eq. }
  destruct (truthy_str (h_nightscoutUrl s)) as [base|] eqn:Hu.
  - destruct (URL_valid base) eqn:Hv.
    + rewrite (fetchAndRender_suspends URL_valid c s w1 _ _ base Hi Hu Hv).
      split; [exists new_instance; split; [|done];
              apply get_instance_Some; split; apply lookup_insert_eq|].
      simpl. unfold cleared. simpl.
      split; [done|]. split; [intros [=]|]. by intros ? [= <-] _.
    + unfold fetchAndRender. rewrite Hi. simpl. rewrite Hu, Hv. simpl.
      split.
      * exists (set_fetchTimeout (Some (nextHandle w)) new_instance).
        split; [|done]. apply get_instance_Some.
        split; [apply lookup_insert_eq|]. simpl.
        rewrite lookup_alter_eq, lookup_insert_eq. done.
      * split; [intros h t Ht Hne; by rewrite lookup_insert_ne|].
        split; [intros [=]|]. intros ? [= <-] ?. congruence.
  - rewrite (fetchAndRender_no_url URL_valid c s false w1 _ _ Hi Hu).
    split.
    + exists new_instance. split; [|done].
      apply get_instance_Some. split; apply lookup_insert_eq.
    + done.
Qed.

(** ** The texts of the number view *)

Lemma arrow_table_values (k v : string) :
  assoc k DIRECTION_ARROWS = Some v → v ≠ EmptyString.
Proof.
  unfold DIRECTION_ARROWS. simpl.
  repeat (destruct (String.eqb k _); [by intros [= <-]|]).
  done.
Qed.

(** X9. For a direction label that is not the name of a member inherited
    from [Object.prototype], the arrow is never the empty text: a missing or
    empty direction label gives the arrow of "Flat", a label of the table
    gives its glyph, and any other label is shown as it is. *)
Theorem arrowOf_never_empty (data : NightscoutResponse) :
  (∀ label, direction_label data = Some label →
            inherited_name label = false) →
  arrowOf data ≠ EmptyString ∧
  (direction_label data = None ∨ direction_label data = Some EmptyString →
   arrowOf data = "→"%string) ∧
  (∀ label, direction_label data = Some label → label ≠ EmptyString →
            assoc label DIRECTION_ARROWS = None → arrowOf data = label).
Proof.
  intros _. unfold arrowOf.
  assert (Hd : or_string (direction_label data) "Flat" ≠ EmptyString).
  { unfold or_string. destruct (direction_label data) as [x|]; [|done].
    destruct (String.eqb x EmptyString) eqn:E; [done|].
    by apply String.eqb_neq in E. }
  split; [|split].
  - set (d := or_string (direction_label data) "Flat") in *.
    destruct (assoc d DIRECTION_ARROWS) as [v|] eqn:E; simpl.
    + pose proof (arrow_table_values d v E) as Hv.
      destruct (String.eqb v EmptyString) eqn:E2; [|done].
      by apply String.eqb_eq in E2.
    + done.
  - intros [-> | ->]; reflexivity.
  - intros label -> Hne Hun. unfold or_string at 2.
    apply String.eqb_neq in Hne. rewrite Hne.
    unfold or_string. rewrite Hne. by rewrite Hun.
Qed.

Lemma arrowOf_never_empty_witness :
  (∀ label, direction_label (direction_only "Sideways") = Some label →
            inherited_name label = false) ∧
  arrowOf (direction_only "Sideways") = "Sideways"%string ∧
  arrowOf (direction_only "SingleUp") ≠ EmptyString.
Proof.
  assert (H1 : ∀ label, direction_label (direction_only "Sideways") = Some label →
                        inherited_name label = false)
    by (intros label [= <-]; reflexivity).
  assert (H2 : ∀ label, direction_label (direction_only "SingleUp") = Some label →
                        inherited_name label = false)
    by (intros label [= <-]; reflexivity).
  split; [exact H1|]. split.
  - destruct (arrowOf_never_empty (direction_only "Sideways") H1) as (_ & _ & H).
    apply H; [reflexivity|discriminate|reflexivity].
  - destruct (arrowOf_never_empty (direction_only "SingleUp") H2) as (H & _).
    exact H.
Defined.

(** ** The graph *)

(** In the rationals of the model, comparisons are unchanged by the
    division by 18. *)
Lemma leb_div18 (a b : num) : (a / n18 <=? b / n18) = (a <=? b).
Proof.
  destruct a as [| |x|], b as [| |y|]; try reflexivity.
  change (Fin x / n18) with (Fin (Qred (x / 18))).
  change (Fin y / n18) with (Fin (Qred (y / 18))).
  apply eq_true_iff_eq. rewrite !leb_Fin, !Qred_correct.
  unfold Qdiv. change (/ 18)%Q with (1 # 18)%Q. split; intros H; lra.
Qed.

(** X10. For samples and thresholds that are whole numbers of mg/dL, the
    colours of the sample markers of the graph do not depend on the unit:
    in mmol/L samples and thresholds are both divided by 18, and two whole
    numbers keep their order, or their equality, under that division. *)
Theorem graph_marker_colors_ignore_unit (data : NightscoutResponse)
    (entries : list NightscoutEntry) (s : Settings) :
  Forall (λ e, whole (sgv e)) entries →
  whole (urgentHigh s) → whole (urgentLow s) →
  whole (normalHigh s) → whole (normalLow s) →
  graph_fills (renderGraph data entries (with_unit Mmol s))
  = graph_fills (renderGraph data entries (with_unit Mgdl s)).
Proof.
  intros _ _ _ _ _. destruct entries as [|e es]; [done|].
  unfold renderGraph, graph_fills. cbn [g_circles]. f_equal.
  apply list_eq. intros i.
  rewrite !list_lookup_fmap, !list_lookup_imap, !list_lookup_fmap.
  destruct (sort_by _ (e :: es) !! i) as [x|]; [|done].
  cbn -[div leb geb]. unfold geb. rewrite !leb_div18. done.
Qed.

Lemma graph_marker_colors_ignore_unit_witness :
  Forall (λ e, whole (sgv e)) [sample 100 1; sample 300 2; sample 180 3] ∧
  (whole (urgentHigh DEFAULT_SETTINGS) ∧ whole (urgentLow DEFAULT_SETTINGS) ∧
   whole (normalHigh DEFAULT_SETTINGS) ∧ whole (normalLow DEFAULT_SETTINGS)) ∧
  graph_fills (renderGraph (reading (ofZ 100) None)
                 [sample 100 1; sample 300 2; sample 180 3]
                 (with_unit Mmol DEFAULT_SETTINGS))
  = Some [inRangeColor DEFAULT_SETTINGS; urgentColor DEFAULT_SETTINGS;
          normalColor DEFAULT_SETTINGS].
Proof.
  assert (Hw : ∀ z, (Z.abs z <= 1000000)%Z → whole (ofZ z))
    by (intros z Hz; by exists z).
  assert (He : Forall (λ e, whole (sgv e))
                 [sample 100 1; sample 300 2; sample 180 3])
    by (repeat constructor; apply Hw; simpl; lia).
  assert (H1 : whole (urgentHigh DEFAULT_SETTINGS)) by (apply Hw; simpl; lia).
  assert (H2 : whole (urgentLow DEFAULT_SETTINGS)) by (apply Hw; simpl; lia).
  assert (H3 : whole (normalHigh DEFAULT_SETTINGS)) by (apply Hw; simpl; lia).
  assert (H4 : whole (normalLow DEFAULT_SETTINGS)) by (apply Hw; simpl; lia).
  split; [exact He|]. split; [by repeat split|].
  rewrite (graph_marker_colors_ignore_unit (reading (ofZ 100) None)
             [sample 100 1; sample 300 2; sample 180 3] DEFAULT_SETTINGS
             He H1 H2 H3 H4).
  vm_compute. reflexivity.
Defined.

Lemma insert_by_perm {A} (cmp : A → A → num) (x : A) (l : list A) :
  insert_by cmp x l ≡ₚ x :: l.
Proof.
  induction l as [|y l IH]; [done|]. cbn [insert_by].
  destruct (cmp x y >? n0); [|reflexivity].
  rewrite IH. apply Permutation_swap.
Qed.

Lemma sort_by_perm {A} (cmp : A → A → num) (l : list A) :
  sort_by cmp l ≡ₚ l.
Proof.
  induction l as [|x l IH]; [done|].
  change (sort_by cmp (x :: l)) with (insert_by cmp x (sort_by cmp l)).
  by rewrite insert_by_perm, IH.
Qed.

Lemma by_date_positive (a b : NightscoutEntry) :
  finite_date a → finite_date b →
  (date a - date b >? n0) = true ↔ (date b <? date a) = true.
Proof.
  intros [x Hx] [y Hy]. rewrite Hx, Hy.
  change (Fin x - Fin y) with (Fin (Qred (x + Qred (- y)))).
  unfold gtb, n0, ofZ. rewrite !ltb_Fin, !Qred_correct.
  change (inject_Z 0) with 0%Q. split; intros H; lra.
Qed.

Lemma insert_by_date_sorted (x : NightscoutEntry) (l : list NightscoutEntry) :
  finite_date x → Forall finite_date l →
  Sorted date_le l →
  Sorted date_le (insert_by (λ a b, date a - date b) x l).
Proof.
  intros Hx Hl Hs. induction l as [|y l IH]; cbn [insert_by].
  - by repeat constructor.
  - apply Forall_cons in Hl as [Hy Hl].
    apply Sorted_inv in Hs as [Hs Hhd].
    destruct (date x - date y >? n0) eqn:E.
    + apply by_date_positive in E; [|done..].
      constructor; [by apply IH|].
      assert (Hyx : date_le y x).
      { destruct Hx as [qx Hqx], Hy as [qy Hqy]. unfold date_le.
        rewrite Hqx, Hqy in *. apply ltb_Fin in E. apply leb_Fin.
        by apply Qlt_le_weak. }
      destruct l as [|z l]; cbn [insert_by]; [by constructor|].
      destruct (date x - date z >? n0); constructor; [|done].
      by apply HdRel_inv in Hhd.
    + constructor; [by constructor|]. constructor.
      destruct Hx as [qx Hqx], Hy as [qy Hqy]. unfold date_le.
      assert (E' : (date y <? date x) = false).
      { destruct (date y <? date x) eqn:E2; [|done].
        apply by_date_positive in E2; [congruence|by eexists..]. }
      rewrite Hqx, Hqy in *. apply leb_Fin.
      destruct (Qlt_le_dec qy qx) as [H|H]; [|done].
      apply ltb_Fin in H. congruence.
Qed.

(** X11. The entries the graph is drawn from are the entries received,
    reordered by ascending date (for finite dates). *)
Theorem sort_by_date_sorted (entries : list NightscoutEntry) :
  Forall finite_date entries →
  let sortedEntries := sort_by (λ a b, date a - date b) entries in
  sortedEntries ≡ₚ entries ∧ Sorted date_le sortedEntries.
Proof.
  intros Hf. split; [apply sort_by_perm|].
  induction entries as [|x l IH]; [constructor|].
  apply Forall_cons in Hf as [Hx Hl].
  change (sort_by (λ a b, date a - date b) (x :: l))
    with (insert_by (λ a b, date a - date b) x
            (sort_by (λ a b, date a - date b) l)).
  apply insert_by_date_sorted; [done| |by apply IH].
  by rewrite sort_by_perm.
Qed.
Lemma sort_by_date_sorted_witness :
  Forall finite_date [sample 100 20; sample 110 10] ∧
  sort_by (λ a b, date a - date b) [sample 100 20; sample 110 10]
    ≡ₚ [sample 100 20; sample 110 10] ∧
  Sorted date_le
    (sort_by (λ a b, date a - date b) [sample 100 20; sample 110 10]).
Proof.
  assert (Hf : Forall finite_date [sample 100 20; sample 110 10]).
  { repeat constructor; by eexists. }
  split; [exact Hf|].
  apply (sort_by_date_sorted [sample 100 20; sample 110 10] Hf).
Defined.

Lemma num_is_Fin (q : Q) : num_is (Fin q) q.
Proof. by exists q. Qed.

Lemma num_is_ofZ (z : Z) : num_is (ofZ z) (inject_Z z).
Proof. by eexists. Qed.

Lemma num_is_add a b x y : num_is a x → num_is b y → num_is (a + b) (x + y).
Proof.
  intros (x' & -> & Hx) (y' & -> & Hy). eexists. split; [reflexivity|].
  by rewrite Qred_correct, Hx, Hy.
Qed.

Lemma num_is_sub a b x y : num_is a x → num_is b y → num_is (a - b) (x - y).
Proof.
  intros (x' & -> & Hx) (y' & -> & Hy). eexists. split; [reflexivity|].
  rewrite !Qred_correct, Hx, Hy. reflexivity.
Qed.

Lemma num_is_mul a b x y : num_is a x → num_is b y → num_is (a * b) (x * y).
Proof.
  intros (x' & -> & Hx) (y' & -> & Hy). eexists. split; [reflexivity|].
  by rewrite Qred_correct, Hx, Hy.
Qed.

Lemma num_is_div a b x y :
  num_is a x → num_is b y → ¬ (y == 0)%Q → num_is (a / b) (x / y).
Proof.
  intros (x' & -> & Hx) (y' & -> & Hy) Hne.
  unfold div. destruct (y' ?= 0)%Q eqn:E.
  - apply Qeq_alt in E. rewrite Hy in E. contradiction.
  - eexists. split; [reflexivity|]. by rewrite Qred_correct, Hx, Hy.
  - eexists. split; [reflexivity|]. by rewrite Qred_correct, Hx, Hy.
Qed.

Lemma num_is_proper a x y : (x == y)%Q → num_is a x → num_is a y.
Proof. intros E (x' & -> & Hx). exists x'. split; [done|]. by rewrite Hx. Qed.

Lemma strict_eq_ofNat (i : nat) (a : num) (z : Z) :
  num_is a (inject_Z z) → strict_eq (ofNat i) a = true ↔ Z.of_nat i = z.
Proof.
  intros (q & -> & Hq). unfold ofNat, ofZ, strict_eq.
  rewrite Qeq_bool_iff, Hq. split; [apply inject_Z_injective|by intros ->].
Qed.

Lemma lastIndex_is (n : nat) :
  num_is (ofNat n - ofZ 1) (inject_Z (Z.of_nat n - 1)).
Proof.
  eapply num_is_proper; [|apply num_is_sub; apply num_is_ofZ].
  unfold Z.sub. rewrite inject_Z_plus, inject_Z_opp. reflexivity.
Qed.

(** X12. The graph has one marker and one path point per entry; the path
    starts with a move to the first marker and draws a line to each
    further one; the last marker, and only it, is outlined and has radius
    3.5 instead of 1.8. *)
Theorem graph_layout (data : NightscoutResponse) (e : NightscoutEntry)
    (es : list NightscoutEntry) (s : Settings) :
  let n := length (e :: es) in
  ∃ g, renderGraph data (e :: es) s = SvgGraph g ∧
       length (g_circles g) = n ∧ length (g_pathPoints g) = n ∧
       (∀ i c, g_circles g !! i = Some c →
          (stroke c = true ↔ S i = n) ∧
          radius c = (if stroke c then Fin (7 # 2) else Fin (9 # 5)) ∧
          ∃ p, g_pathPoints g !! i = Some p ∧
               p = (if decide (i = 0%nat) then M (cx c) (cy c)
                    else L (cx c) (cy c))).
Proof.
  intros n. eexists. split; [reflexivity|]. cbn [g_circles g_pathPoints].
  set (sorted := sort_by _ (e :: es)).
  assert (Hlen : length sorted = n).
  { unfold sorted. by rewrite sort_by_perm. }
  rewrite !length_imap, !length_fmap, Hlen.
  split; [done|]. split; [done|].
  intros i c. rewrite !list_lookup_imap, !list_lookup_fmap.
  destruct (sorted !! i) as [x|] eqn:Hx; [|done]. cbn [fmap option_fmap option_map].
  intros [= <-]. cbn [stroke radius cx cy].
  assert (Hlast : strict_eq (ofNat i) (ofNat n - ofZ 1) = true ↔ S i = n).
  { rewrite (strict_eq_ofNat i _ _ (lastIndex_is n)). lia. }
  split; [exact Hlast|]. split; [done|].
  eexists. split; [reflexivity|].
  assert (H0 : strict_eq (ofNat i) n0 = true ↔ i = 0%nat).
  { rewrite (strict_eq_ofNat i n0 0 (num_is_ofZ 0)). lia. }
  destruct (strict_eq (ofNat i) n0) eqn:E0; case_decide as Hi; try done.
  - by destruct (proj1 H0 eq_refl).
  - apply H0 in Hi. congruence.
Qed.
Lemma max_list_finite (l : list num) :
  Forall finite l → l ≠ [] →
  ∃ m, max_list l = Fin m ∧ ∀ q, Fin q ∈ l → (q <= m)%Q.
Proof.
  intros Hf Hne. induction l as [|a l IH]; [done|].
  apply Forall_cons in Hf as [[x ->] Hl].
  destruct l as [|b l].
  - exists x. split; [reflexivity|]. intros q Hq.
    apply list_elem_of_singleton in Hq as [= ->]. apply Qle_refl.
  - destruct (IH Hl ltac:(done)) as (m & Hm & Hle).
    change (max_list (Fin x :: b :: l)) with (max2 (Fin x) (max_list (b :: l))).
    rewrite Hm.
    change (max2 (Fin x) (Fin m))
      with (if Fin x <=? Fin m then Fin m else Fin x).
    destruct (Fin x <=? Fin m) eqn:E.
    + apply leb_Fin in E. exists m. split; [done|]. intros q Hq.
      apply elem_of_cons in Hq as [[= ->]|Hq]; [done|]. by apply Hle.
    + assert (Hmx : (m <= x)%Q).
      { destruct (Qlt_le_dec m x) as [H|H]; [by apply Qlt_le_weak|].
        apply leb_Fin in H. congruence. }
      exists x. split; [done|]. intros q Hq.
      apply elem_of_cons in Hq as [[= ->]|Hq]; [apply Qle_refl|].
      eapply Qle_trans; [by apply Hle|done].
Qed.

Lemma min_list_finite (l : list num) :
  Forall finite l → l ≠ [] →
  ∃ m, min_list l = Fin m ∧ ∀ q, Fin q ∈ l → (m <= q)%Q.
Proof.
  intros Hf Hne. induction l as [|a l IH]; [done|].
  apply Forall_cons in Hf as [[x ->] Hl].
  destruct l as [|b l].
  - exists x. split; [reflexivity|]. intros q Hq.
    apply list_elem_of_singleton in Hq as [= ->]. apply Qle_refl.
  - destruct (IH Hl ltac:(done)) as (m & Hm & Hle).
    change (min_list (Fin x :: b :: l)) with (min2 (Fin x) (min_list (b :: l))).
    rewrite Hm.
    change (min2 (Fin x) (Fin m))
      with (if Fin x <=? Fin m then Fin x else Fin m).
    destruct (Fin x <=? Fin m) eqn:E.
    + apply leb_Fin in E. exists x. split; [done|]. intros q Hq.
      apply elem_of_cons in Hq as [[= ->]|Hq]; [apply Qle_refl|].
      eapply Qle_trans; [done|by apply Hle].
    + assert (Hmx : (m <= x)%Q).
      { destruct (Qlt_le_dec m x) as [H|H]; [by apply Qlt_le_weak|].
        apply leb_Fin in H. congruence. }
      exists m. split; [done|]. intros q Hq.
      apply elem_of_cons in Hq as [[= ->]|Hq]; [done|]. by apply Hle.
Qed.

Lemma getY_bounds (v m M : Q) :
  (m <= v)%Q → (v <= M)%Q → (m < M)%Q →
  (28 <= 126 - (v - (m - (M - m) * (3 # 20)))
                / ((M - m) + 2 * ((M - m) * (3 # 20))) * 98 <= 126)%Q.
Proof.
  intros H1 H2 H3.
  set (D := ((M - m) + 2 * ((M - m) * (3 # 20)))%Q).
  set (N := (v - (m - (M - m) * (3 # 20)))%Q).
  assert (HD : (0 < D)%Q) by (unfold D; lra).
  assert (Hf0 : (0 <= N / D)%Q).
  { apply Qle_shift_div_l; [done|]. unfold N. lra. }
  assert (Hf1 : (N / D <= 1)%Q).
  { apply Qle_shift_div_r; [done|]. unfold N, D. lra. }
  set (f := (N / D)%Q) in *. clearbody f. lra.
Qed.
Lemma getY_is (v minV maxV : num) (qv qm qM : Q) :
  num_is v qv → num_is minV qm → num_is maxV qM → (qm < qM)%Q →
  num_is
    (graphBottom
     - ((v - (minV - (maxV - minV) * Fin (3 # 20)))
        / ((maxV - minV) + ofZ 2 * ((maxV - minV) * Fin (3 # 20))))
       * graphHeight)
    (126 - (qv - (qm - (qM - qm) * (3 # 20)))
           / ((qM - qm) + 2 * ((qM - qm) * (3 # 20))) * 98).
Proof.
  intros Hv Hm HM Hlt.
  apply num_is_sub; [apply (num_is_ofZ 126)|].
  apply num_is_mul; [|apply (num_is_ofZ 98)].
  apply num_is_div.
  - repeat first [apply num_is_sub | apply num_is_mul | apply num_is_Fin
                 | assumption].
  - apply num_is_add; [by apply num_is_sub|].
    apply num_is_mul; [apply (num_is_ofZ 2)|].
    apply num_is_mul; [by apply num_is_sub|apply num_is_Fin].
  - intros E. change (inject_Z 2) with 2%Q in E. lra.
Qed.

Lemma scaled18_finite (s : Settings) (q : Q) : finite (scaled18 s (Fin q)).
Proof. unfold scaled18. destruct (s_unit s); by eexists. Qed.

(** X13. With samples and urgent thresholds of at most a million in size,
    and urgent-low at least 1 below urgent-high, every marker and the two
    urgent threshold lines lie inside the plotting area, between y = 28 and
    y = 126. *)
Theorem graph_inside_plot (data : NightscoutResponse) (e : NightscoutEntry)
    (es : list NightscoutEntry) (s : Settings) (uh ul : Q) :
  Forall (λ e0, bounded (sgv e0)) (e :: es) →
  urgentHigh s = Fin uh → urgentLow s = Fin ul →
  (Qabs uh <= 1000000)%Q → (Qabs ul <= 1000000)%Q → (ul + 1 <= uh)%Q →
  ∃ g, renderGraph data (e :: es) s = SvgGraph g ∧
       (∀ c, c ∈ g_circles g →
             ∃ y, cy c = Fin y ∧ (28 <= y <= 126)%Q) ∧
       (∃ yh yl, (g_thresholdY g).1.1.1 = Fin yh ∧ (g_thresholdY g).2 = Fin yl ∧
                 (28 <= yh <= 126)%Q ∧ (28 <= yl <= 126)%Q).
Proof.
  intros Hb Huh Hul _ _ Hsep.
  assert (Hf : Forall finite_sgv (e :: es)).
  { eapply Forall_impl; [exact Hb|]. intros x (q & Hq & _). by exists q. }
  assert (Hlt : (ul < uh)%Q) by lra.
  clear Hb Hsep. eexists. split; [reflexivity|].
  cbn [g_circles g_thresholdY fst snd].
  set (sorted := sort_by _ (e :: es)).
  set (values := map (λ e0, scaled18 s (sgv e0)) sorted).
  assert (Hvals : Forall finite values).
  { unfold values. apply Forall_fmap, Forall_forall. intros x Hx.
    assert (Hx' : x ∈ e :: es).
    { unfold sorted in Hx. by rewrite sort_by_perm in Hx. }
    rewrite Forall_forall in Hf. destruct (Hf x Hx') as [q Hq].
    unfold compose. rewrite Hq. apply scaled18_finite. }
  destruct (scaled18_finite s uh) as [uh' Huh'].
  destruct (scaled18_finite s ul) as [ul' Hul'].
  assert (Hlt' : (ul' < uh')%Q).
  { unfold scaled18 in Huh', Hul'. destruct (s_unit s).
    - by injection Huh' as <-; injection Hul' as <-.
    - injection Huh' as <-; injection Hul' as <-.
      rewrite !Qred_correct. unfold Qdiv.
      change (/ inject_Z 18)%Q with (1 # 18)%Q. lra. }
  rewrite Huh, Hul, Huh', Hul'.
  destruct (max_list_finite (values ++ [Fin uh'])) as (M & HM & HMle).
  { apply Forall_app. split; [done|]. repeat constructor. by eexists. }
  { by destruct values. }
  destruct (min_list_finite (values ++ [Fin ul'])) as (m & Hm & Hmle).
  { apply Forall_app. split; [done|]. repeat constructor. by eexists. }
  { by destruct values. }
  rewrite HM, Hm.
  assert (HuhM : (uh' <= M)%Q).
  { apply HMle, elem_of_app. right. by apply list_elem_of_singleton. }
  assert (Hulm : (m <= ul')%Q).
  { apply Hmle, elem_of_app. right. by apply list_elem_of_singleton. }
  assert (HmM : (m < M)%Q) by lra.
  split.
  - intros c Hc. apply list_elem_of_lookup in Hc as [i Hc].
    rewrite list_lookup_imap in Hc.
    destruct (values !! i) as [v|] eqn:Hv; [|done].
    injection Hc as <-. cbn [cy].
    assert (Hvin : v ∈ values) by (apply list_elem_of_lookup; eauto).
    rewrite Forall_forall in Hvals. destruct (Hvals v Hvin) as [qv ->].
    destruct (getY_is (Fin qv) (Fin m) (Fin M) qv m M) as (y & Hy & Hyq);
      [apply num_is_Fin..|done|].
    exists y. split; [exact Hy|]. rewrite Hyq.
    apply getY_bounds; [|  |done].
    + apply Hmle, elem_of_app. by left.
    + apply HMle, elem_of_app. by left.
  - destruct (getY_is (Fin uh') (Fin m) (Fin M) uh' m M) as (yh & Hyh & Hyhq);
      [apply num_is_Fin..|done|].
    destruct (getY_is (Fin ul') (Fin m) (Fin M) ul' m M) as (yl & Hyl & Hylq);
      [apply num_is_Fin..|done|].
    exists yh, yl. split; [exact Hyh|]. split; [exact Hyl|].
    rewrite Hyhq, Hylq. split; apply getY_bounds; lra.
Qed.

Lemma graph_inside_plot_witness :
  Forall (λ e0, bounded (sgv e0)) [sample 100 1; sample 300 2] ∧
  urgentHigh DEFAULT_SETTINGS = Fin 250 ∧
  urgentLow DEFAULT_SETTINGS = Fin 55 ∧
  (Qabs 250 <= 1000000)%Q ∧ (Qabs 55 <= 1000000)%Q ∧ (55 + 1 <= 250)%Q ∧
  ∃ g, renderGraph (reading (ofZ 100) None) [sample 100 1; sample 300 2]
         DEFAULT_SETTINGS = SvgGraph g ∧
       ∀ c, c ∈ g_circles g → ∃ y, cy c = Fin y ∧ (28 <= y <= 126)%Q.
Proof.
  assert (Hf : Forall (λ e0, bounded (sgv e0)) [sample 100 1; sample 300 2]).
  { repeat constructor; eexists; (split; [reflexivity|]);
      unfold Qle; simpl; lia. }
  assert (H1 : (Qabs 250 <= 1000000)%Q) by (unfold Qle; simpl; lia).
  assert (H2 : (Qabs 55 <= 1000000)%Q) by (unfold Qle; simpl; lia).
  assert (H3 : (55 + 1 <= 250)%Q) by (unfold Qle; simpl; lia).
  split; [exact Hf|]. split; [reflexivity|]. split; [reflexivity|].
  split; [exact H1|]. split; [exact H2|]. split; [exact H3|].
  destruct (graph_inside_plot (reading (ofZ 100) None) (sample 100 1)
              [sample 300 2] DEFAULT_SETTINGS 250 55 Hf eq_refl eq_refl
              H1 H2 H3) as (g & Hg & Hc & _).
  exists g. by split.
Defined.

Lemma Qfloor_ge (x : Q) (z : Z) : (z <= Qfloor x)%Z ↔ (inject_Z z <= x)%Q.
Proof.
  split.
  - intros H. eapply Qle_trans; [|apply Qfloor_le]. by rewrite <- Zle_Qle.
  - intros H. destruct (Z_lt_le_dec (Qfloor x) z) as [Hlt|]; [|done].
    exfalso. assert (Hz : (Qfloor x + 1 <= z)%Z) by lia.
    rewrite Zle_Qle in Hz. pose proof (Qlt_floor x) as Hx.
    apply (Qlt_irrefl x). eapply Qlt_le_trans; [exact Hx|].
    by eapply Qle_trans.
Qed.

Lemma minutesAgo_is (n m : Q) :
  floor ((Fin n - Fin m) / ofZ 60000) = ofZ (Qfloor ((n - m) / 60000)).
Proof.
  change ((Fin n - Fin m) / ofZ 60000)
    with (Fin (Qred (Qred (n + Qred (- m)) / inject_Z 60000))).
  unfold floor. f_equal. apply Qfloor_comp.
  rewrite !Qred_correct. reflexivity.
Qed.

Lemma dashes_trim (k : nat) :
  (1 <= k <= 5)%nat → trim (repeat_string "–" k) = repeat_string "–" k.
Proof.
  intros H.
  assert (Hk : k = 1%nat ∨ k = 2%nat ∨ k = 3%nat ∨ k = 4%nat ∨ k = 5%nat) by lia.
  destruct Hk as [-> | [-> | [-> | [-> | ->]]]]; reflexivity.
Qed.

(** X15. The label under the number, for a reading taken [elapsed] ms ago:
    "now" below one minute (also for a reading time in the future), as many
    dashes as whole minutes from one to five minutes, and "N m ago" with
    N >= 6 whole minutes from six minutes on. *)
Theorem agoText_by_elapsed (now : num) (data : NightscoutResponse) (n m : Q) :
  now = Fin n → truthy_opt (bgnow_mills data) = Some (Fin m) →
  let elapsed := (n - m)%Q in
  ((elapsed < 60000)%Q → agoText now data = TStr "now") ∧
  (∀ k : nat, (1 <= k <= 5)%nat →
     (60000 * inject_Z (Z.of_nat k) <= elapsed)%Q →
     (elapsed < 60000 * inject_Z (Z.of_nat k + 1))%Q →
     agoText now data = TStr (repeat_string "–" k)) ∧
  ((360000 <= elapsed)%Q →
   (6 <= Qfloor (elapsed / 60000))%Z ∧
   agoText now data
   = TCat (TNum (ofZ (Qfloor (elapsed / 60000)))) (TStr "m ago")).
Proof.
  intros -> Hm elapsed. unfold agoText. rewrite Hm, minutesAgo_is.
  fold elapsed. set (k0 := Qfloor (elapsed / 60000)).
  assert (Hgt : ∀ z : Z, (ofZ k0 >? ofZ z) = true ↔ (z < k0)%Z).
  { intros z. unfold gtb, ofZ. rewrite ltb_Fin. by rewrite <- Zlt_Qlt. }
  assert (Hge : ∀ z : Z, (z <= k0)%Z ↔ (60000 * inject_Z z <= elapsed)%Q).
  { intros z. unfold k0. rewrite Qfloor_ge. unfold Qdiv.
    change (/ 60000)%Q with (1 # 60000)%Q.
    set (zz := inject_Z z). clearbody zz elapsed. split; intros H; lra. }
  split; [|split].
  - intros H.
    assert (Hk : (k0 <= 0)%Z).
    { destruct (Z_lt_le_dec 0 k0) as [Hlt|]; [|done]. exfalso.
      assert (H1 : (1 <= k0)%Z) by lia. apply Hge in H1.
      change (inject_Z 1) with 1%Q in H1. lra. }
    destruct (ofZ k0 >? ofZ 5) eqn:E5; [apply Hgt in E5; lia|].
    destruct (ofZ k0 >? n0) eqn:E0; [apply (Hgt 0%Z) in E0; lia|done].
  - intros k Hk Hlo Hhi.
    assert (Hk0 : k0 = Z.of_nat k).
    { apply Hge in Hlo.
      destruct (Z_lt_le_dec k0 (Z.of_nat k + 1)) as [|Hle]; [lia|].
      apply Hge in Hle. exfalso. lra. }
    destruct (ofZ k0 >? ofZ 5) eqn:E5; [apply Hgt in E5; lia|].
    destruct (ofZ k0 >? n0) eqn:E0.
    + rewrite Hk0. unfold to_nat, ofZ. rewrite Qfloor_Z, Nat2Z.id.
      by rewrite dashes_trim.
    + assert (H0 : (0 < k0)%Z) by lia. apply (Hgt 0%Z) in H0.
      unfold n0 in E0. congruence.
  - intros H.
    assert (Hk : (6 <= k0)%Z).
    { apply Hge. change (inject_Z 6) with 6%Q. lra. }
    split; [done|].
    assert (H5 : (5 < k0)%Z) by lia. apply Hgt in H5. by rewrite H5.
Qed.
Lemma agoText_by_elapsed_witness :
  ofZ 1000000 = Fin 1000000 ∧
  truthy_opt (bgnow_mills (snapshot 100 900000)) = Some (Fin 900000) ∧
  agoText (ofZ 1000000) (snapshot 100 900000) = TStr (repeat_string "–" 1).
Proof.
  split; [reflexivity|]. split; [reflexivity|].
  destruct (agoText_by_elapsed (ofZ 1000000) (snapshot 100 900000)
              1000000 900000 eq_refl eq_refl) as (_ & Hdash & _).
  apply (Hdash 1%nat); [lia|unfold Qle; simpl; lia|reflexivity].
Defined.

(** ** The delta text *)

(** X17. The delta text.  In mg/dL, or when the scaled delta is missing or
    zero, it is the display string of the site (empty when there is none),
    also in mmol/L.  In mmol/L with a scaled delta that is a non-zero whole
    number [z] (of at most a million in size) it is the number [r], a
    multiple of 0.01 within 0.005 of [z / 18], with a leading "+" exactly
    when [r >= 0]. *)
Theorem deltaText_cases (data : NightscoutResponse) (s : Settings) :
  (s_unit s = Mgdl ∨ truthy_opt (delta_scaled data) = None →
   deltaText data s = TStr (or_string (delta_display data) EmptyString)) ∧
  (∀ z : Z, (Z.abs z <= 1000000)%Z → s_unit s = Mmol →
     truthy_opt (delta_scaled data) = Some (ofZ z) →
     ∃ r k, (r * 100 == inject_Z k)%Q ∧
            (Qabs (r - inject_Z z / 18) <= 1 # 200)%Q ∧
            deltaText data s
            = if Qle_bool 0 r then TCat (TStr "+") (TNum (Fin r))
              else TNum (Fin r)).
Proof.
  unfold deltaText. split.
  - intros [-> | ->]; [done|]. by destruct (s_unit s).
  - intros z _ -> ->. set (d := inject_Z z).
    exists (Qred (inject_Z (Qfloor (Qred (Qred (d / 18) * 100) + (1 # 2))) / 100)),
           (Qfloor (Qred (Qred (d / 18) * 100) + (1 # 2))).
    set (k := Qfloor _).
    assert (Hk1 : (inject_Z k <= d / 18 * 100 + (1 # 2))%Q).
    { unfold k. eapply Qle_trans; [apply Qfloor_le|].
      rewrite !Qred_correct. apply Qle_refl. }
    assert (Hk2 : (d / 18 * 100 + (1 # 2) < inject_Z (k + 1))%Q).
    { unfold k. eapply Qle_lt_trans; [|apply Qlt_floor].
      rewrite !Qred_correct. apply Qle_refl. }
    rewrite inject_Z_plus in Hk2.
    split; [rewrite Qred_correct; field|]. split; [|reflexivity].
    rewrite Qred_correct. apply Qabs_Qle_condition.
    change (inject_Z 1) with 1%Q in Hk2.
    unfold Qdiv in *. change (/ 100)%Q with (1 # 100)%Q.
    set (x := (d * / 18)%Q) in *. clearbody k x. split; lra.
Qed.

Lemma deltaText_cases_witness :
  (Z.abs (-5) <= 1000000)%Z ∧
  s_unit mmol_thresholds = Mmol ∧
  truthy_opt (delta_scaled (delta_only (-5))) = Some (ofZ (-5)) ∧
  deltaText (delta_only (-5)) mmol_thresholds = TNum (fin (- (28 # 100))) ∧
  ∃ r k, (r * 100 == inject_Z k)%Q ∧
         (Qabs (r - inject_Z (-5) / 18) <= 1 # 200)%Q ∧
         deltaText (delta_only (-5)) mmol_thresholds
         = if Qle_bool 0 r then TCat (TStr "+") (TNum (Fin r))
           else TNum (Fin r).
Proof.
  split; [simpl; lia|]. split; [reflexivity|]. split; [reflexivity|].
  split; [reflexivity|].
  destruct (deltaText_cases (delta_only (-5)) mmol_thresholds) as [_ H].
  apply (H (-5)%Z); [simpl; lia|reflexivity|reflexivity].
Defined.
